(** * ONT Login Go SDK: the protocol validator of [sdk/sdk.go]

    A shallow embedding of [OntLoginSdk] (challenge issuance, response
    validation, DID and verification-method parsing) together with the
    Go library functions it calls, and the properties of the design
    document stated over that embedding. *)

From Stdlib Require Import ZArith String Ascii List Bool Lia.
From stdpp Require Import base option gmap strings pretty.

Local Open Scope string_scope.
Local Open Scope Z_scope.

(** ** Go library functions used by the SDK *)

(** Go strings are byte sequences: [string] (a list of [ascii]) is the
    same thing.  [Bytes] is a Go [[]byte]. *)
Definition Bytes : Type := list Byte.byte.

Module strings.

(** [strings.Split(s, sep)] for a one-byte separator, which is what all
    three call sites of the SDK pass (":", "#" and "-").  A string with
    no separator yields the one-element slice holding [s]. *)
Fixpoint Split (s : string) (sep : ascii) : list string :=
  match s with
  | EmptyString => [EmptyString]
  | String c s' =>
      if Ascii.eqb c sep then EmptyString :: Split s' sep
      else match Split s' sep with
           | [] => [String c EmptyString]
           | h :: t => String c h :: t
           end
  end.

(** Number of occurrences of a byte. *)
Fixpoint Count (s : string) (c : ascii) : nat :=
  match s with
  | EmptyString => 0%nat
  | String a s' => ((if Ascii.eqb a c then 1 else 0) + Count s' c)%nat
  end.

(** The ASCII fast path of [strings.EqualFold]: upper-case letters are
    mapped to lower case and the strings compared byte by byte.  On
    strings whose bytes are all below 0x80 this is the whole function. *)
Definition lower (c : ascii) : ascii :=
  let n := N_of_ascii c in
  if ((65 <=? n) && (n <=? 90))%N then ascii_of_N (n + 32) else c.

Fixpoint EqualFold_ascii (s t : string) : bool :=
  match s, t with
  | EmptyString, EmptyString => true
  | String a s', String b t' => Ascii.eqb (lower a) (lower b) && EqualFold_ascii s' t'
  | _, _ => false
  end.

End strings.

Module strconv.

(** [*strconv.NumError].Err *)
Inductive NumError := ErrSyntax | ErrRange.

(** [strconv.IntSize] on the 64-bit targets. *)
Definition IntSize : Z := 64.

Definition byteVal (c : ascii) : Z := Z.of_N (N_of_ascii c).

Definition isDigit (c : ascii) : bool :=
  (48 <=? byteVal c) && (byteVal c <=? 57).

(** The digit loop of [ParseUint(s, 10, bitSize)]: [n] is a uint64, the
    overflow of [n*10] is excluded by [cutoff] and that of [n+d] is
    detected after the wrap-around. *)
Definition maxUint64 : Z := 2 ^ 64 - 1.
Definition cutoff10 : Z := maxUint64 / 10 + 1.

Fixpoint ParseUint_loop (maxVal : Z) (s : string) (n : Z) : Z * option NumError :=
  match s with
  | EmptyString => (n, None)
  | String c r =>
      if isDigit c then
        let d := byteVal c - 48 in
        if n >=? cutoff10 then (maxVal, Some ErrRange)
        else
          let n10 := n * 10 in
          let n1 := (n10 + d) mod 2 ^ 64 in
          if (n1 <? n10) || (n1 >? maxVal) then (maxVal, Some ErrRange)
          else ParseUint_loop maxVal r n1
      else (0, Some ErrSyntax)
  end.

Definition ParseUint10 (s : string) (bitSize : Z) : Z * option NumError :=
  match s with
  | EmptyString => (0, Some ErrSyntax)
  | _ => ParseUint_loop (2 ^ bitSize - 1) s 0
  end.

(** [ParseInt(s, 10, 0)]. *)
Definition ParseInt10 (s : string) : Z * option NumError :=
  match s with
  | EmptyString => (0, Some ErrSyntax)
  | String c r =>
      let neg := Ascii.eqb c "-" in
      let body := if Ascii.eqb c "+" || neg then r else s in
      match ParseUint10 body IntSize with
      | (_, Some ErrSyntax) => (0, Some ErrSyntax)
      | (un, _) =>
          let cutoff := 2 ^ (IntSize - 1) in
          if negb neg && (un >=? cutoff) then (cutoff - 1, Some ErrRange)
          else if neg && (un >? cutoff) then (- cutoff, Some ErrRange)
          else (if neg then - un else un, None)
      end
  end.

(** The fast path of [Atoi]: at most 18 bytes, so [n] cannot overflow. *)
Fixpoint Atoi_fast_loop (s : string) (n : Z) : option Z :=
  match s with
  | EmptyString => Some n
  | String ch r =>
      let d := (byteVal ch - 48) mod 256 in
      if d >? 9 then None else Atoi_fast_loop r (n * 10 + d)
  end.

Definition Atoi (s : string) : Z * option NumError :=
  let sLen := Z.of_nat (String.length s) in
  if (0 <? sLen) && (sLen <? 19) then
    match s with
    | EmptyString => (0, Some ErrSyntax)
    | String c r =>
        let signed := Ascii.eqb c "-" || Ascii.eqb c "+" in
        let body := if signed then r else s in
        if signed && (Z.of_nat (String.length body) <? 1) then (0, Some ErrSyntax)
        else
          match Atoi_fast_loop body 0 with
          | None => (0, Some ErrSyntax)
          | Some n => (if Ascii.eqb c "-" then - n else n, None)
          end
    end
  else ParseInt10 s.

End strconv.

Module hex.

(** [encoding/hex]: the two decoding errors. *)
Inductive DecodeError := InvalidByteError (b : ascii) | ErrLength.

Definition fromHexChar (c : ascii) : option N :=
  let n := N_of_ascii c in
  if ((48 <=? n) && (n <=? 57))%N then Some (n - 48)%N
  else if ((97 <=? n) && (n <=? 102))%N then Some (n - 97 + 10)%N
  else if ((65 <=? n) && (n <=? 70))%N then Some (n - 65 + 10)%N
  else None.

Definition mkByte (hi lo : N) : Byte.byte :=
  byte_of_ascii (ascii_of_N (hi * 16 + lo)).

(** [hex.DecodeString]: pairs of hex digits, the first bad byte is
    reported; an odd length is reported after the complete pairs. *)
Fixpoint DecodeString (s : string) : Bytes + DecodeError :=
  match s with
  | EmptyString => inl []
  | String p EmptyString =>
      match fromHexChar p with
      | None => inr (InvalidByteError p)
      | Some _ => inr ErrLength
      end
  | String p (String q r) =>
      match fromHexChar p with
      | None => inr (InvalidByteError p)
      | Some a =>
          match fromHexChar q with
          | None => inr (InvalidByteError q)
          | Some b =>
              match DecodeString r with
              | inl bs => inl (mkByte a b :: bs)
              | inr e => inr e
              end
          end
      end
  end.

End hex.

(** ** Package [modules]: messages and constants *)

(** Modelled from the spec: package [modules], which [sdk.go] imports,
    is not among the sources.  The records follow the data model of the
    design document and carry the fields that [sdk.go] and its test
    read or write; the constants are a parameter ([Consts]).  The
    hello and the response are passed by pointers that are not nil. *)
Module modules.

Module ServerInfo.
Record t := mk {
  Name : string; Icon : string; Url : string; Did : string;
  VerificationMethod : string }.
End ServerInfo.

Module ServerInfoToSign.
Record t := mk { Name : string; Url : string; Did : string }.
End ServerInfoToSign.

Module VCFilter.
Record t := mk { Type_ : string; Required : bool }.
End VCFilter.

Module ClientHello.
Record t := mk { Ver : string; Type_ : string; Action : Z }.
End ClientHello.

(** A nil slice is [None]; [Some []] is an empty slice that is not nil. *)
Definition slice (A : Type) : Type := option (list A).

Module ServerHello.
Record t := mk {
  Ver : string; Type_ : string; Nonce : string;
  Server : option ServerInfo.t;      (* *modules.ServerInfo *)
  Chain : list string; Alg : list string;
  VCFilters : slice VCFilter.t }.
End ServerHello.

Module Proof.
Record t := mk { VerificationMethod : string; Created : Z; Value : string }.
End Proof.

Module ClientResponse.
Record t := mk {
  Ver : string; Type_ : string; Did : string; Nonce : string;
  Proof : Proof.t; VPs : list string }.
End ClientResponse.

(** The message the client signs; [ValidateClientResponse] sets these
    five fields and no other. *)
Module ClientResponseMsg.
Record t := mk {
  Type_ : string; Server : ServerInfoToSign.t; Nonce : string;
  Did : string; Created : Z }.
End ClientResponseMsg.

(** The constants of the package that [sdk.go] names. *)
Record Consts := mkConsts {
  SYS_VER : string;
  TYPE_CLIENT_HELLO : string;
  TYPE_SERVER_HELLO : string;
  TYPE_CLIENT_RESPONSE : string;
  ACTION_AUTHORIZATION : Z;
  ACTION_CERTIFICATION : Z }.

End modules.

Import modules.

(** ** Errors

    One constructor per error value the SDK creates, named after the
    error kinds of the design document; the comment gives the source
    expression. *)
Inductive error :=
  | WrongVersion                 (* fmt.Errorf(modules.ERR_WRONG_VERSION) *)
  | TypeNotSupported             (* fmt.Errorf(modules.ERR_TYPE_NOT_SUPPORTED) *)
  | ActionNotSupported           (* fmt.Errorf(modules.ERR_ACTION_NOT_SUPPORTED) *)
  | InvalidDidFormat             (* "valid did format" *)
  | MalformedReference           (* "verificationMethod format invalid" *)
  | AtoiError (e : strconv.NumError)  (* the error of strconv.Atoi *)
  | DidMismatch                  (* "did and VerificationMethod not match" *)
  | NonceInvalid                 (* "nonce is existed on server side" *)
  | SignatureDecodeFailed (e : hex.DecodeError)  (* "decode proof value failed:%s" *)
  | MessageEncodingFailed (e : string)           (* "marshal message failed:%s" *)
  | UnsupportedChain (chain : string)            (* "not a support did chain:%s" *)
  | External (msg : string).     (* an error value made by a collaborator *)

(** ** External collaborators and the effect monad

    The nonce authority and the chain processors are supplied by the
    caller and may read and write state of their own (the nonce store,
    a chain node).  That state is the type [W]; every call of a
    collaborator threads it and is recorded, with its arguments and its
    result, in the call log. *)

Inductive Event :=
  | GenNonce (action : Z) (nonce : string)
  | GetAction (nonce : string) (action : Z) (err : option error)
  | VerifySig (chain did : string) (index : Z) (msg sig : Bytes)
              (err : option error)
  | VerifyPresentation (chain did : string) (index : Z) (vp : string)
              (requiredTypes : slice VCFilter.t) (err : option error).

Inductive Outcome (A : Type) :=
  | Ok (a : A)        (* the function returned, with a nil error *)
  | Err (e : error)   (* the function returned the error [e] *)
  | Panic.            (* nil pointer dereference *)
Arguments Ok {A} a.
Arguments Err {A} e.
Arguments Panic {A}.

Section World.
Context {W : Type}.

Record State := mkState { world : W; calls : list Event }.

Definition M (A : Type) : Type := State -> Outcome A * State.

Definition ret {A} (a : A) : M A := fun st => (Ok a, st).
Definition fail {A} (e : error) : M A := fun st => (Err e, st).
Definition panic {A} : M A := fun st => (Panic, st).

Definition bind {A B} (m : M A) (k : A -> M B) : M B :=
  fun st =>
    match m st with
    | (Ok a, st') => k a st'
    | (Err e, st') => (Err e, st')
    | (Panic, st') => (Panic, st')
    end.

(** [if err != nil { return err }] *)
Definition check (err : option error) : M unit :=
  match err with
  | Some e => fail e
  | None => ret tt
  end.

(** Dereference of a pointer. *)
Definition deref {A} (p : option A) : M A :=
  match p with
  | Some a => ret a
  | None => panic
  end.

(** A call of a collaborator: run it on the world, log the event. *)
Definition call {A} (f : W -> A * W) (ev : A -> Event) : M A :=
  fun st =>
    let '(a, w') := f (world st) in
    (Ok a, {| world := w'; calls := calls st ++ [ev a] |}).

End World.
Arguments State W : clear implicits.
Arguments M W A : clear implicits.

(** The state before any call of a collaborator. *)
Definition start {W} (w : W) : State W := {| world := w; calls := [] |}.

(** The monad operations under stdpp's names, for its notations
    [x ← m; k] and [m ;; k]. *)
#[global] Instance M_ret {W} : MRet (M W) := @ret W.
#[global] Instance M_bind {W} : MBind (M W) := fun A B k m => bind m k.

(** ** Package [did]: the chain processor interface *)

(** Modelled from the spec: the chain resolver capability of the design
    document, with the arguments of the two calls in [sdk.go].  The
    processors of a registry are not nil. *)
Module did.
Record DidProcessor (W : Type) := mkProcessor {
  VerifySig : string -> Z -> Bytes -> Bytes -> W -> option error * W;
  VerifyPresentation :
    string -> Z -> string -> slice VCFilter.t -> W -> option error * W }.
Arguments VerifySig {W} _.
Arguments VerifyPresentation {W} _.
End did.

(** ** Package [sdk] *)
Module sdk.

(** [GetDIDChain]: the receiver is not used. *)
Definition GetDIDChain (did : string) : string * option error :=
  let tmpArr := strings.Split did ":" in
  if negb (length tmpArr =? 3)%nat then ("", Some InvalidDidFormat)
  else (nth 1 tmpArr "", None).

Definition getDIDKeyAndIndex (verifymethod : string) : string * Z * option error :=
  let tmpArr := strings.Split verifymethod "#" in
  if negb (length tmpArr =? 2)%nat then ("", 0, Some MalformedReference)
  else
    let keyArr := strings.Split (nth 1 tmpArr "") "-" in
    if negb (length keyArr =? 2)%nat then ("", 0, Some MalformedReference)
    else
      let '(idx, err) := strconv.Atoi (nth 1 keyArr "") in
      (nth 0 tmpArr "", idx, option_map AtoiError err).

(** [VCFilters] is read by lookups only, for which a key bound to a nil
    slice is the same as an absent key: a lookup gives [None] for nil
    and [Some fs] for the slice [fs] of a bound key. *)
Record SDKConfig := mkConfig {
  Chain : list string;
  Alg : list string;
  ServerInfo : option ServerInfo.t;              (* *modules.ServerInfo *)
  VCFilters : gmap Z (list VCFilter.t) }.        (* map[int][]*modules.VCFilter *)

(** The two injected functions read and write the state of the nonce
    authority. *)
Record OntLoginSdk (W : Type) := mkSdk {
  didProcessors : gmap string (did.DidProcessor W);
  conf : SDKConfig;
  genRandomNonceFunc : Z -> W -> string * W;
  getActionByNonce : string -> W -> (Z * option error) * W }.
Arguments didProcessors {W} _.
Arguments conf {W} _.
Arguments genRandomNonceFunc {W} _.
Arguments getActionByNonce {W} _.

Section Sdk.
Context {W : Type}.
(** The constants of package [modules]. *)
Variable K : Consts.
(** [strings.EqualFold] and [json.Marshal] on [modules.ClientResponseMsg]. *)
Variable EqualFold : string -> string -> bool.
Variable json_Marshal : ClientResponseMsg.t -> Bytes + string.

Definition validateClientHello (req : ClientHello.t) : option error :=
  if negb (EqualFold (ClientHello.Ver req) (SYS_VER K)) then Some WrongVersion
  else if negb (EqualFold (ClientHello.Type_ req) (TYPE_CLIENT_HELLO K))
  then Some TypeNotSupported
  else if negb (ClientHello.Action req =? ACTION_AUTHORIZATION K)
          && negb (ClientHello.Action req =? ACTION_CERTIFICATION K)
  then Some ActionNotSupported
  else None.

Definition validateClientResponse (response : ClientResponse.t) : option error :=
  if negb (EqualFold (ClientResponse.Ver response) (SYS_VER K)) then Some WrongVersion
  else if negb (EqualFold (ClientResponse.Type_ response) (TYPE_CLIENT_RESPONSE K))
  then Some TypeNotSupported
  else None.

Definition GenerateChallenge (s : OntLoginSdk W) (req : ClientHello.t)
  : M W ServerHello.t :=
  (* 1. validate req *)
  check (validateClientHello req) ;;
  (* 2. generate uuid *)
  uuid ← call (genRandomNonceFunc s (ClientHello.Action req))
               (GenNonce (ClientHello.Action req));
  (* res.VCFilters stays nil unless the map has filters for the action *)
  let filters :=
    match VCFilters (conf s) !! ClientHello.Action req with
    | Some fs => Some fs
    | None => None
    end in
  ret {| ServerHello.Ver := SYS_VER K;
         ServerHello.Type_ := TYPE_SERVER_HELLO K;
         ServerHello.Nonce := uuid;
         ServerHello.Server := ServerInfo (conf s);
         ServerHello.Chain := Chain (conf s);
         ServerHello.Alg := Alg (conf s);
         ServerHello.VCFilters := filters |}.

(** The loop over [res.VPs]. *)
Fixpoint verifyPresentations (chain : string) (processor : did.DidProcessor W)
    (did : string) (index : Z) (requiredTypes : slice VCFilter.t)
    (vps : list string) : M W unit :=
  match vps with
  | [] => ret tt
  | vp :: rest =>
      err ← call (did.VerifyPresentation processor did index vp requiredTypes)
                  (VerifyPresentation chain did index vp requiredTypes);
      check err ;;
      verifyPresentations chain processor did index requiredTypes rest
  end.

Definition ValidateClientResponse (s : OntLoginSdk W) (res : ClientResponse.t)
  : M W unit :=
  (* 1. validate res *)
  check (validateClientResponse res) ;;
  (* the error of getDIDKeyAndIndex is assigned and overwritten unread *)
  let '(did, index, _) :=
    getDIDKeyAndIndex (Proof.VerificationMethod (ClientResponse.Proof res)) in
  if negb (EqualFold did (ClientResponse.Did res)) then fail DidMismatch
  else
    let '(chain, err) := GetDIDChain did in
    check err ;;
    '(action, err) ← call (getActionByNonce s (ClientResponse.Nonce res))
                           (fun r => GetAction (ClientResponse.Nonce res) r.1 r.2);
    match err with
    | Some _ => fail NonceInvalid
    | None =>
        si ← deref (ServerInfo (conf s));
        let msg :=
          {| ClientResponseMsg.Type_ := ClientResponse.Type_ res;
             ClientResponseMsg.Server :=
               {| ServerInfoToSign.Name := ServerInfo.Name si;
                  ServerInfoToSign.Url := ServerInfo.Url si;
                  ServerInfoToSign.Did := ServerInfo.Did si |};
             ClientResponseMsg.Nonce := ClientResponse.Nonce res;
             ClientResponseMsg.Did := did;
             ClientResponseMsg.Created := Proof.Created (ClientResponse.Proof res) |} in
        match hex.DecodeString (Proof.Value (ClientResponse.Proof res)) with
        | inr e => fail (SignatureDecodeFailed e)
        | inl sigdata =>
            match json_Marshal msg with
            | inr e => fail (MessageEncodingFailed e)
            | inl dataToSign =>
                match didProcessors s !! chain with
                | None => fail (UnsupportedChain chain)
                | Some processor =>
                    err ← call (did.VerifySig processor did index dataToSign sigdata)
                                (VerifySig chain did index dataToSign sigdata);
                    check err ;;
                    (* verify presentation *)
                    if (0 <? length (ClientResponse.VPs res))%nat then
                      let requiredTypes := VCFilters (conf s) !! action in
                      verifyPresentations chain processor did index requiredTypes
                                          (ClientResponse.VPs res)
                    else ret tt
                end
            end
        end
    end.

End Sdk.

End sdk.
Import sdk.

(** ** The alternate variant of the validator

    The second copy of [sdk.go] keeps one global filter list and hands
    the processor the type names of the required filters only. *)
Module legacy.

Fixpoint getRequiredVcTypes_loop (vcfilters : list VCFilter.t) (res : list string)
  : list string :=
  match vcfilters with
  | [] => res
  | vcf :: rest =>
      getRequiredVcTypes_loop rest
        (if VCFilter.Required vcf then (res ++ [VCFilter.Type_ vcf])%list else res)
  end.

Definition getRequiredVcTypes (vcfilters : list VCFilter.t) : list string :=
  getRequiredVcTypes_loop vcfilters [].

End legacy.

(** * Notions used in the statements *)

(** Strings of decimal digits. *)
Fixpoint allDigits (s : string) : bool :=
  match s with
  | EmptyString => true
  | String c r => strconv.isDigit c && allDigits r
  end.

(** The DID and the key index that [ValidateClientResponse] takes from
    the proof of a response. *)
Definition proofDid (res : ClientResponse.t) : string :=
  (getDIDKeyAndIndex (Proof.VerificationMethod (ClientResponse.Proof res))).1.1.
Definition proofIndex (res : ClientResponse.t) : Z :=
  (getDIDKeyAndIndex (Proof.VerificationMethod (ClientResponse.Proof res))).1.2.

(** The message that is signed. *)
Definition signedMsg (si : ServerInfo.t) (res : ClientResponse.t) : ClientResponseMsg.t :=
  {| ClientResponseMsg.Type_ := ClientResponse.Type_ res;
     ClientResponseMsg.Server :=
       {| ServerInfoToSign.Name := ServerInfo.Name si;
          ServerInfoToSign.Url := ServerInfo.Url si;
          ServerInfoToSign.Did := ServerInfo.Did si |};
     ClientResponseMsg.Nonce := ClientResponse.Nonce res;
     ClientResponseMsg.Did := proofDid res;
     ClientResponseMsg.Created := Proof.Created (ClientResponse.Proof res) |}.

(** ** The call log of the loop over the presentations *)
Section Log.
Variables (chain d : string) (i : Z) (req : slice VCFilter.t).

(** The calls the loop makes on a list of presentations, and how it
    ends: it goes on while the processor accepts, and stops with the
    processor's error at the first presentation it rejects. *)
Inductive vp_log : list string -> list Event -> Outcome unit -> Prop :=
  | vp_done : vp_log [] [] (Ok tt)
  | vp_reject vp rest e :
      vp_log (vp :: rest) [VerifyPresentation chain d i vp req (Some e)] (Err e)
  | vp_accept vp rest evs out :
      vp_log rest evs out ->
      vp_log (vp :: rest) (VerifyPresentation chain d i vp req None :: evs) out.

End Log.

(** ** A run that reaches the signature check

    The nonce lookup succeeded, the server descriptor is there, the
    signature decoded, the message serialized and the chain has a
    processor; [VerifySig] is called, and when it accepts, the loop
    over the presentations follows. *)
Section Reached.
Context {W : Type}.
Variable json_Marshal : ClientResponseMsg.t -> Bytes + string.
Variables (s : OntLoginSdk W) (res : ClientResponse.t) (w : W).

Inductive reached_VerifySig (out : Outcome unit) (log : list Event) : Prop :=
  | reached (action : Z) (w1 w2 : W) (si : ServerInfo.t) (sigdata data : Bytes)
      (chain : string) (processor : did.DidProcessor W) (verr : option error)
      (Hnonce : getActionByNonce s (ClientResponse.Nonce res) w = ((action, None), w1))
      (Hsi : ServerInfo (conf s) = Some si)
      (Hhex : hex.DecodeString (Proof.Value (ClientResponse.Proof res)) = inl sigdata)
      (Hmsg : json_Marshal (signedMsg si res) = inl data)
      (Hchain : GetDIDChain (proofDid res) = (chain, None))
      (Hproc : didProcessors s !! chain = Some processor)
      (Hsig : did.VerifySig processor (proofDid res) (proofIndex res) data sigdata w1
              = (verr, w2))
      (Hrest :
         match verr with
         | Some e =>
             out = Err e /\
             log = [GetAction (ClientResponse.Nonce res) action None;
                    VerifySig chain (proofDid res) (proofIndex res) data sigdata (Some e)]
         | None =>
             exists evs,
               log = (GetAction (ClientResponse.Nonce res) action None ::
                      VerifySig chain (proofDid res) (proofIndex res) data sigdata None ::
                      evs)%list /\
               vp_log chain (proofDid res) (proofIndex res) (VCFilters (conf s) !! action)
                      (ClientResponse.VPs res) evs out
         end).

End Reached.

(** ** Presentations that a processor accepts one after the other

    [all_verify processor d i req vps w w']: starting in the world [w],
    the processor's [VerifyPresentation] returns no error on each
    presentation of [vps] in turn, and leaves the world [w']. *)
Section Accepts.
Context {W : Type}.
Variables (processor : did.DidProcessor W) (d : string) (i : Z)
          (req : slice VCFilter.t).

Inductive all_verify : list string -> W -> W -> Prop :=
  | all_verify_nil w : all_verify [] w w
  | all_verify_cons vp rest w w1 w2 :
      did.VerifyPresentation processor d i vp req w = (None, w1) ->
      all_verify rest w1 w2 ->
      all_verify (vp :: rest) w w2.

End Accepts.

(** ** The decimal value of a string of digits *)
Fixpoint decimal (n : Z) (s : string) : Z :=
  match s with
  | EmptyString => n
  | String c r => decimal (n * 10 + (strconv.byteVal c - 48)) r
  end.

Definition decimalValue (s : string) : Z := decimal 0 s.

(** The largest [int]. *)
Definition maxInt : Z := 2 ^ (strconv.IntSize - 1) - 1.

(** ** Package [sdk]: the credential reader *)
Module sdk_rest.

(** The error of [fmt.Errorf("chain not supported")].  It is carried as
    its message, like the errors that collaborators make: a processor
    can return an error that is equal to it. *)
Definition errChainNotSupported : error := External "chain not supported".

Section Rest.
Context {W : Type}.

(** The third method of the processor interface, as a function of the
    processor. *)
Variable GetCredentialJsons :
  did.DidProcessor W -> string -> W -> (slice string * option error) * W.

(** The answer of the processor is returned as it is. *)
Definition GetCredentailJson (s : OntLoginSdk W) (chain presentation : string)
    (w : W) : (slice string * option error) * W :=
  match didProcessors s !! chain with
  | None => ((None, Some errChainNotSupported), w)
  | Some processor => GetCredentialJsons processor presentation w
  end.

End Rest.
End sdk_rest.

(** ** Readings of a call log *)

(** The calls of a chain processor. *)
Definition isProcessorCall (ev : Event) : bool :=
  match ev with
  | VerifySig _ _ _ _ _ _ | VerifyPresentation _ _ _ _ _ _ => true
  | _ => false
  end.

(** The presentations submitted to [VerifyPresentation], in order. *)
Fixpoint presentationsOf (log : list Event) : list string :=
  match log with
  | [] => []
  | VerifyPresentation _ _ _ vp _ _ :: rest => vp :: presentationsOf rest
  | _ :: rest => presentationsOf rest
  end.

(** The number of calls of [VerifySig]. *)
Fixpoint countVerifySig (log : list Event) : nat :=
  match log with
  | [] => 0
  | VerifySig _ _ _ _ _ _ :: rest => S (countVerifySig rest)
  | _ :: rest => countVerifySig rest
  end.

(** The checks of [ValidateClientResponse] that come before the nonce
    lookup: the format check, the comparison of the DIDs and the shape
    of the DID. *)
Definition prechecks (K : Consts) (EqualFold : string -> string -> bool)
    (res : ClientResponse.t) : Prop :=
  sdk.validateClientResponse K EqualFold res = None /\
  EqualFold (proofDid res) (ClientResponse.Did res) = true /\
  (GetDIDChain (proofDid res)).2 = None.

(** The part of a server descriptor that is signed, nil for a nil
    descriptor. *)
Definition reduced (si : option ServerInfo.t) : option ServerInfoToSign.t :=
  match si with
  | Some si =>
      Some {| ServerInfoToSign.Name := ServerInfo.Name si;
              ServerInfoToSign.Url := ServerInfo.Url si;
              ServerInfoToSign.Did := ServerInfo.Did si |}
  | None => None
  end.

(** ** The alternate variant of the validator: the whole file

    The second copy of [sdk.go] differs from the first in its types: the
    action of a hello is a string, the nonce of a response is a field of
    its proof, the signed message has no nonce, the nonce authority mints
    without an action and only checks that a nonce exists, and the chain
    resolvers take the trusted DIDs and the names of the required
    credential types. *)
Module legacy_sdk.

(** Modelled from the spec: the records of package [modules] at the time
    of this variant, with the fields that the file reads or writes. *)
Module ClientHello.
Record t := mk { Ver : string; Type_ : string; Action : string }.
End ClientHello.

Module Proof.
Record t := mk {
  VerificationMethod : string; Created : Z; Value : string; Nonce : string }.
End Proof.

Module ClientResponse.
Record t := mk {
  Ver : string; Type_ : string; Did : string; Proof : Proof.t; VPs : list string }.
End ClientResponse.

Module ClientResponseMsg.
Record t := mk {
  Type_ : string; Server : ServerInfoToSign.t; Did : string; Created : Z }.
End ClientResponseMsg.

(** Modelled from the spec: the chain resolver capability, with the
    arguments of the two calls in the file. *)
Record DidResolver (W : Type) := mkResolver {
  VerifySig : string -> Z -> Bytes -> Bytes -> W -> option error * W;
  VerifyPresentation :
    string -> Z -> string -> list string -> list string -> W -> option error * W }.
Arguments VerifySig {W} _.
Arguments VerifyPresentation {W} _.

Record SDKConfig := mkConfig {
  chain : list string;
  alg : list string;
  serverInfo : option ServerInfo.t;
  vcfilters : slice VCFilter.t;
  trustedDIDs : list string }.

Record OntLoginSdk (W : Type) := mkSdk {
  didResolvers : gmap string (DidResolver W);
  conf : SDKConfig;
  genRandomNonceFunc : W -> string * W;
  checkNonceExistFunc : string -> W -> option error * W }.
Arguments didResolvers {W} _.
Arguments conf {W} _.
Arguments genRandomNonceFunc {W} _.
Arguments checkNonceExistFunc {W} _.

(** The calls of the collaborators. *)
Inductive Event :=
  | GenNonce (nonce : string)
  | CheckNonce (nonce : string) (err : option error)
  | SigCall (chain did : string) (index : Z) (msg sig : Bytes) (err : option error)
  | PresentationCall (chain did : string) (index : Z) (vp : string)
      (trustedDIDs requiredTypes : list string) (err : option error).

Section Variant.
Context {W : Type}.

Record State := mkState { world : W; calls : list Event }.

Definition M (A : Type) : Type := State -> Outcome A * State.

Definition ret {A} (a : A) : M A := fun st => (Ok a, st).
Definition fail {A} (e : error) : M A := fun st => (Err e, st).
Definition panic {A} : M A := fun st => (Panic, st).

Definition bind {A B} (m : M A) (k : A -> M B) : M B :=
  fun st =>
    match m st with
    | (Ok a, st') => k a st'
    | (Err e, st') => (Err e, st')
    | (Panic, st') => (Panic, st')
    end.

Definition check (err : option error) : M unit :=
  match err with
  | Some e => fail e
  | None => ret tt
  end.

Definition deref {A} (p : option A) : M A :=
  match p with
  | Some a => ret a
  | None => panic
  end.

Definition call {A} (f : W -> A * W) (ev : A -> Event) : M A :=
  fun st =>
    let '(a, w') := f (world st) in
    (Ok a, {| world := w'; calls := calls st ++ [ev a] |}).

#[local] Instance M_ret : MRet M := @ret.
#[local] Instance M_bind : MBind M := fun A B k m => bind m k.

Variable K : Consts.
(** [modules.ACTION_REGISTER]. *)
Variable ACTION_REGISTER : string.
Variable EqualFold : string -> string -> bool.
Variable json_Marshal : ClientResponseMsg.t -> Bytes + string.

Definition validateClientHello (req : ClientHello.t) : option error :=
  if negb (EqualFold (ClientHello.Ver req) (SYS_VER K)) then Some WrongVersion
  else if negb (EqualFold (ClientHello.Type_ req) (TYPE_CLIENT_HELLO K))
  then Some TypeNotSupported
  else if negb (EqualFold (ClientHello.Action req) "0")
          && negb (EqualFold (ClientHello.Action req) "1")
  then Some ActionNotSupported
  else None.

Definition validateClientResponse (response : ClientResponse.t) : option error :=
  if negb (EqualFold (ClientResponse.Ver response) (SYS_VER K)) then Some WrongVersion
  else if negb (EqualFold (ClientResponse.Type_ response) (TYPE_CLIENT_RESPONSE K))
  then Some TypeNotSupported
  else None.

Definition getRequiredVcTypes (s : OntLoginSdk W) : list string :=
  legacy.getRequiredVcTypes (default [] (vcfilters (conf s))).

Definition GenerateChallenge (s : OntLoginSdk W) (req : ClientHello.t)
  : M ServerHello.t :=
  (* 1. validate req *)
  check (validateClientHello req) ;;
  (* 2. generate uuid *)
  uuid ← call (genRandomNonceFunc s) GenNonce;
  let filters :=
    if String.eqb (ClientHello.Action req) ACTION_REGISTER
    then vcfilters (conf s) else None in
  ret {| ServerHello.Ver := SYS_VER K;
         ServerHello.Type_ := TYPE_SERVER_HELLO K;
         ServerHello.Nonce := uuid;
         ServerHello.Server := serverInfo (conf s);
         ServerHello.Chain := chain (conf s);
         ServerHello.Alg := alg (conf s);
         ServerHello.VCFilters := filters |}.

Fixpoint verifyPresentations (ch : string) (resolver : DidResolver W)
    (did : string) (index : Z) (trusted requiredTypes : list string)
    (vps : list string) : M unit :=
  match vps with
  | [] => ret tt
  | vp :: rest =>
      err ← call (VerifyPresentation resolver did index vp trusted requiredTypes)
                  (PresentationCall ch did index vp trusted requiredTypes);
      check err ;;
      verifyPresentations ch resolver did index trusted requiredTypes rest
  end.

Definition ValidateClientResponse (s : OntLoginSdk W) (res : ClientResponse.t)
  : M unit :=
  (* 1. validate res *)
  check (validateClientResponse res) ;;
  let '(did, index, _) :=
    getDIDKeyAndIndex (Proof.VerificationMethod (ClientResponse.Proof res)) in
  if negb (EqualFold did (ClientResponse.Did res)) then fail DidMismatch
  else
    let '(ch, err) := GetDIDChain did in
    check err ;;
    err ← call (checkNonceExistFunc s (Proof.Nonce (ClientResponse.Proof res)))
               (CheckNonce (Proof.Nonce (ClientResponse.Proof res)));
    match err with
    | Some _ => fail NonceInvalid
    | None =>
        si ← deref (serverInfo (conf s));
        let msg :=
          {| ClientResponseMsg.Type_ := ClientResponse.Type_ res;
             ClientResponseMsg.Server :=
               {| ServerInfoToSign.Name := ServerInfo.Name si;
                  ServerInfoToSign.Url := ServerInfo.Url si;
                  ServerInfoToSign.Did := ServerInfo.Did si |};
             ClientResponseMsg.Did := did;
             ClientResponseMsg.Created := Proof.Created (ClientResponse.Proof res) |} in
        match hex.DecodeString (Proof.Value (ClientResponse.Proof res)) with
        | inr e => fail (SignatureDecodeFailed e)
        | inl sigdata =>
            match json_Marshal msg with
            | inr e => fail (MessageEncodingFailed e)
            | inl dataToSign =>
                match didResolvers s !! ch with
                | None => fail (UnsupportedChain ch)
                | Some resolver =>
                    err ← call (VerifySig resolver did index dataToSign sigdata)
                                (SigCall ch did index dataToSign sigdata);
                    check err ;;
                    (* verify presentation *)
                    if (0 <? length (ClientResponse.VPs res))%nat then
                      let requiredTypes := getRequiredVcTypes s in
                      verifyPresentations ch resolver did index
                        (trustedDIDs (conf s)) requiredTypes (ClientResponse.VPs res)
                    else ret tt
                end
            end
        end
    end.

End Variant.
Arguments State W : clear implicits.

(** The state before any call of a collaborator. *)
Definition start {W} (w : W) : State W := {| world := w; calls := [] |}.

(** The DID and the key index that the validator takes from the proof. *)
Definition proofDid (res : ClientResponse.t) : string :=
  (getDIDKeyAndIndex (Proof.VerificationMethod (ClientResponse.Proof res))).1.1.
Definition proofIndex (res : ClientResponse.t) : Z :=
  (getDIDKeyAndIndex (Proof.VerificationMethod (ClientResponse.Proof res))).1.2.

End legacy_sdk.

(** ** A test environment

    The configuration of [initTestEnv] in [sdk_test.go], with in-memory
    collaborators in place of the chain node. *)
Module TestEnv.

(** Modelled from the spec: the constants of package [modules], which
    [sdk.go] imports.  The version and the type tags are those of the
    design document's end-to-end scenario; the actions are numbered in
    the order the document lists them. *)
Definition K : Consts :=
  {| SYS_VER := "v1";
     TYPE_CLIENT_HELLO := "client_hello";
     TYPE_SERVER_HELLO := "server_hello";
     TYPE_CLIENT_RESPONSE := "client_response";
     ACTION_AUTHORIZATION := 0;
     ACTION_CERTIFICATION := 1 |}.

Definition bytes_of_string (s : string) : Bytes :=
  map byte_of_ascii (list_ascii_of_string s).

(** An encoder standing for [json.Marshal]: the five fields of the
    message in the order of the struct literal. *)
Definition marshal (m : ClientResponseMsg.t) : Bytes + string :=
  inl (bytes_of_string
    ("{type:" ++ ClientResponseMsg.Type_ m ++
     ",server:{name:" ++ ServerInfoToSign.Name (ClientResponseMsg.Server m) ++
     ",url:" ++ ServerInfoToSign.Url (ClientResponseMsg.Server m) ++
     ",did:" ++ ServerInfoToSign.Did (ClientResponseMsg.Server m) ++
     "},nonce:" ++ ClientResponseMsg.Nonce m ++
     ",did:" ++ ClientResponseMsg.Did m ++
     ",created:" ++ pretty (ClientResponseMsg.Created m) ++ "}"))%string.

(** The nonce store: the nonces issued and not yet used, each with its
    action. *)
Definition Store : Type := list (string * Z).

Definition genNonce (action : Z) (w : Store) : string * Store :=
  ("random string", ("random string", action) :: w).

Fixpoint getAction (nonce : string) (w : Store) : (Z * option error) * Store :=
  match w with
  | [] => ((0, Some (External "unknown nonce")), [])
  | (n, a) :: rest =>
      if String.eqb n nonce then ((a, None), rest)
      else let '(r, rest') := getAction nonce rest in (r, (n, a) :: rest')
  end.

(** A chain processor that accepts the one-byte signature 0x01 and every
    presentation but "bad". *)
Definition processor : did.DidProcessor Store :=
  {| did.VerifySig := fun _ _ _ sig w =>
       (match sig with
        | [Byte.x01] => None
        | _ => Some (External "signature verification failed")
        end, w);
     did.VerifyPresentation := fun _ _ vp _ w =>
       (if String.eqb vp "bad" then Some (External "presentation verification failed")
        else None, w) |}.

Definition serverInfo : ServerInfo.t :=
  {| ServerInfo.Name := "testServcer";
     ServerInfo.Icon := "http://somepic.jpg";
     ServerInfo.Url := "https://ont.io";
     ServerInfo.Did := "did:ont:sampletest";
     ServerInfo.VerificationMethod := "" |}.

Definition degree : VCFilter.t := {| VCFilter.Type_ := "DegreeCredential"; VCFilter.Required := true |}.
Definition hobby : VCFilter.t := {| VCFilter.Type_ := "HobbyCredential"; VCFilter.Required := false |}.

Definition config : SDKConfig :=
  {| Chain := ["ont"]; Alg := ["ES256"]; ServerInfo := Some serverInfo;
     VCFilters := {[ 0 := [degree; hobby] ]} |}.

Definition loginsdk : OntLoginSdk Store :=
  {| didProcessors := {[ "ont" := processor ]};
     conf := config;
     genRandomNonceFunc := genNonce;
     getActionByNonce := getAction |}.

Definition response (ver did vm nonce : string) (vps : list string) : ClientResponse.t :=
  {| ClientResponse.Ver := ver;
     ClientResponse.Type_ := "client_response";
     ClientResponse.Did := did;
     ClientResponse.Nonce := nonce;
     ClientResponse.Proof :=
       {| Proof.VerificationMethod := vm; Proof.Created := 1635000000; Proof.Value := "01" |};
     ClientResponse.VPs := vps |}.

Definition validate := ValidateClientResponse (W := Store) K strings.EqualFold_ascii marshal.

(** A store with one issued nonce, for the action 0. *)
Definition store : Store := [("n1", 0)].

(** The response of the design document's end-to-end scenario. *)
Definition accepted : ClientResponse.t :=
  response "v1" "did:ont:abc" "did:ont:abc#key-0" "n1" [].

(** The bytes [marshal] makes of its message. *)
Definition signedBytes : Bytes :=
  bytes_of_string
    "{type:client_response,server:{name:testServcer,url:https://ont.io,did:did:ont:sampletest},nonce:n1,did:did:ont:abc,created:1635000000}".

(** A response for a chain without a registered processor. *)
Definition foreign (nonce : string) : ClientResponse.t :=
  response "v1" "did:eth:abc" "did:eth:abc#key-0" nonce [].

(** A response with presentations. *)
Definition presenting (vps : list string) : ClientResponse.t :=
  response "v1" "did:ont:abc" "did:ont:abc#key-0" "n1" vps.

(** A server whose supported version is "v2". *)
Definition K_v2 : Consts :=
  {| SYS_VER := "v2";
     TYPE_CLIENT_HELLO := TYPE_CLIENT_HELLO K;
     TYPE_SERVER_HELLO := TYPE_SERVER_HELLO K;
     TYPE_CLIENT_RESPONSE := TYPE_CLIENT_RESPONSE K;
     ACTION_AUTHORIZATION := ACTION_AUTHORIZATION K;
     ACTION_CERTIFICATION := ACTION_CERTIFICATION K |}.

Definition upper : ClientResponse.t :=
  response "V1" "did:ont:abc" "did:ont:abc#key-0" "n1" [].
Definition other : ClientResponse.t :=
  response "v2" "did:ont:abc" "did:ont:abc#key-0" "n1" [].

(** A reader of credentials: the presentation itself as its only
    credential, an error for the empty presentation. *)
Definition credentialJsons (_ : did.DidProcessor Store) (presentation : string)
    (w : Store) : (slice string * option error) * Store :=
  if String.eqb presentation "" then ((None, Some (External "empty presentation")), w)
  else ((Some [presentation], None), w).

(** A configuration without server descriptor. *)
Definition configNoServer : SDKConfig :=
  {| Chain := ["ont"]; Alg := ["ES256"]; ServerInfo := None;
     VCFilters := {[ 0 := [degree; hobby] ]} |}.

Definition loginsdkNoServer : OntLoginSdk Store :=
  {| didProcessors := {[ "ont" := processor ]};
     conf := configNoServer;
     genRandomNonceFunc := genNonce;
     getActionByNonce := getAction |}.

(** A server that advertises other chains and algorithms and has
    another icon, with a nonce function of its own. *)
Definition loginsdk' : OntLoginSdk Store :=
  {| didProcessors := {[ "ont" := processor ]};
     conf := {| Chain := ["eth"]; Alg := [];
                ServerInfo :=
                  Some {| ServerInfo.Name := "testServcer";
                          ServerInfo.Icon := "";
                          ServerInfo.Url := "https://ont.io";
                          ServerInfo.Did := "did:ont:sampletest";
                          ServerInfo.VerificationMethod := "did:ont:sampletest#key-1" |};
                VCFilters := {[ 0 := [degree; hobby] ]} |};
     genRandomNonceFunc := fun _ w => ("", w);
     getActionByNonce := getAction |}.

(** The hello of the end-to-end scenario. *)
Definition hello : ClientHello.t :=
  {| ClientHello.Ver := "v1"; ClientHello.Type_ := "client_hello";
     ClientHello.Action := 0 |}.

(** The response to the challenge minted in the test environment. *)
Definition answer (vps : list string) : ClientResponse.t :=
  response "v1" "did:ont:abc" "did:ont:abc#key-0" "random string" vps.

End TestEnv.

(** ** A test environment for the alternate variant *)
Module LegacyEnv.
Import TestEnv.

(** Modelled from the spec: [modules.ACTION_REGISTER], a constant of the
    package at the time of the variant; the second of the two actions
    that the variant accepts. *)
Definition ACTION_REGISTER : string := "1".

Definition marshal (m : legacy_sdk.ClientResponseMsg.t) : Bytes + string :=
  inl (bytes_of_string
    ("{type:" ++ legacy_sdk.ClientResponseMsg.Type_ m ++
     ",server:{name:" ++ ServerInfoToSign.Name (legacy_sdk.ClientResponseMsg.Server m) ++
     ",url:" ++ ServerInfoToSign.Url (legacy_sdk.ClientResponseMsg.Server m) ++
     ",did:" ++ ServerInfoToSign.Did (legacy_sdk.ClientResponseMsg.Server m) ++
     "},did:" ++ legacy_sdk.ClientResponseMsg.Did m ++
     ",created:" ++ pretty (legacy_sdk.ClientResponseMsg.Created m) ++ "}"))%string.

(** The nonces issued, as a list; minting adds the fixed nonce of the
    test, the check finds a nonce or reports it missing. *)
Definition genNonce (w : list string) : string * list string :=
  ("random string", "random string" :: w).

Definition checkNonce (nonce : string) (w : list string) : option error * list string :=
  (if existsb (String.eqb nonce) w then None else Some (External "unknown nonce"), w).

Definition resolver : legacy_sdk.DidResolver (list string) :=
  {| legacy_sdk.VerifySig := fun _ _ _ sig w =>
       (match sig with
        | [Byte.x01] => None
        | _ => Some (External "signature verification failed")
        end, w);
     legacy_sdk.VerifyPresentation := fun _ _ vp _ _ w =>
       (if String.eqb vp "bad" then Some (External "presentation verification failed")
        else None, w) |}.

Definition loginsdk : legacy_sdk.OntLoginSdk (list string) :=
  {| legacy_sdk.didResolvers := {[ "ont" := resolver ]};
     legacy_sdk.conf :=
       {| legacy_sdk.chain := ["ont"]; legacy_sdk.alg := ["ES256"];
          legacy_sdk.serverInfo := Some serverInfo;
          legacy_sdk.vcfilters := Some [degree; hobby];
          legacy_sdk.trustedDIDs := ["did:ont:issuer"] |};
     legacy_sdk.genRandomNonceFunc := genNonce;
     legacy_sdk.checkNonceExistFunc := checkNonce |}.

Definition response (nonce : string) (vps : list string) : legacy_sdk.ClientResponse.t :=
  {| legacy_sdk.ClientResponse.Ver := "v1";
     legacy_sdk.ClientResponse.Type_ := "client_response";
     legacy_sdk.ClientResponse.Did := "did:ont:abc";
     legacy_sdk.ClientResponse.Proof :=
       {| legacy_sdk.Proof.VerificationMethod := "did:ont:abc#key-0";
          legacy_sdk.Proof.Created := 1635000000;
          legacy_sdk.Proof.Value := "01";
          legacy_sdk.Proof.Nonce := nonce |};
     legacy_sdk.ClientResponse.VPs := vps |}.

Definition validate :=
  legacy_sdk.ValidateClientResponse (W := list string) K strings.EqualFold_ascii marshal.

Definition signedBytes : Bytes :=
  bytes_of_string
    "{type:client_response,server:{name:testServcer,url:https://ont.io,did:did:ont:sampletest},did:did:ont:abc,created:1635000000}".

Definition register : legacy_sdk.ClientHello.t :=
  {| legacy_sdk.ClientHello.Ver := "v1"; legacy_sdk.ClientHello.Type_ := "client_hello";
     legacy_sdk.ClientHello.Action := "1" |}.

End LegacyEnv.

(** * Properties *)

(** ** [strings.Split] *)
Section SplitFacts.
Import strings.

Lemma Split_nonempty s c : Split s c <> [].
Proof.
  destruct s as [|a s]; simpl; [discriminate|].
  destruct (Ascii.eqb a c); [discriminate|].
  destruct (Split s c); discriminate.
Qed.

Lemma Split_length s c : length (Split s c) = S (Count s c).
Proof.
  induction s as [|a s IH]; simpl; [reflexivity|].
  destruct (Ascii.eqb a c); simpl; [now rewrite IH|].
  destruct (Split s c) as [|h t] eqn:E; [now apply Split_nonempty in E|].
  simpl in *. exact IH.
Qed.

Lemma Split_no_sep s c : Count s c = 0%nat -> Split s c = [s].
Proof.
  induction s as [|a s IH]; simpl; [reflexivity|].
  destruct (Ascii.eqb a c); [discriminate|].
  intros H. now rewrite (IH H).
Qed.

Lemma Split_app a b c :
  Count a c = 0%nat -> Split (a ++ String c b) c = a :: Split b c.
Proof.
  induction a as [|x a IH]; simpl.
  - intros _. now rewrite Ascii.eqb_refl.
  - destruct (Ascii.eqb x c); [discriminate|].
    intros H. now rewrite (IH H).
Qed.

Lemma Count_app a b c : Count (a ++ b) c = (Count a c + Count b c)%nat.
Proof. induction a as [|x a IH]; simpl; [reflexivity|]. rewrite IH. lia. Qed.

(** The pieces hold no separator, and joining them gives [s] back. *)
Lemma Split_pieces s c : Forall (fun p => Count p c = 0%nat) (Split s c).
Proof.
  induction s as [|a s IH]; simpl.
  - repeat constructor.
  - destruct (Ascii.eqb a c) eqn:E.
    + constructor; [reflexivity|exact IH].
    + destruct (Split s c) as [|h t]; [repeat constructor; simpl; now rewrite E|].
      inversion IH; subst. constructor; [simpl; now rewrite E|assumption].
Qed.

Lemma Split_join s c : String.concat (String c "") (Split s c) = s.
Proof.
  induction s as [|a s IH]; simpl; [reflexivity|].
  destruct (Ascii.eqb a c) eqn:E.
  - apply Ascii.eqb_eq in E. subst a.
    destruct (Split s c) as [|h t] eqn:Es; [now apply Split_nonempty in Es|].
    simpl in *. now rewrite IH.
  - destruct (Split s c) as [|h t] eqn:Es; [now apply Split_nonempty in Es|].
    destruct t; simpl in *; now rewrite <- IH.
Qed.

End SplitFacts.

(** ** [strconv.Atoi] *)
Section AtoiFacts.
Import strconv.


Lemma byteVal_range c : 0 <= byteVal c < 256.
Proof.
  unfold byteVal. pose proof (N_ascii_bounded c). lia.
Qed.

Lemma fast_digit c : ((byteVal c - 48) mod 256 >? 9) = negb (isDigit c).
Proof.
  pose proof (byteVal_range c) as Hc. unfold isDigit.
  destruct (Z_lt_le_dec (byteVal c) 48) as [Hlt|Hge].
  - replace ((byteVal c - 48) mod 256) with (byteVal c + 208)
      by (apply (Z.mod_unique _ _ (-1)); lia).
    lia.
  - rewrite Z.mod_small by lia. lia.
Qed.

Lemma Atoi_fast_loop_ok s : forall n m,
  Atoi_fast_loop s n = Some m -> allDigits s = true /\ (0 <= n -> 0 <= m).
Proof.
  induction s as [|c r IH]; simpl; intros n m H.
  - inversion H; subst. split; [reflexivity|trivial].
  - rewrite fast_digit in H. destruct (isDigit c) eqn:Hd; simpl in H; [|discriminate].
    apply IH in H as [Hr Hm]. split; [exact Hr|].
    intros Hn. apply Hm.
    pose proof (Z.mod_pos_bound (byteVal c - 48) 256). lia.
Qed.

Lemma ParseUint_loop_range mv s : forall n un,
  ParseUint_loop mv s n = (un, Some ErrRange) -> un = mv.
Proof.
  induction s as [|c r IH]; simpl; intros n un H; [discriminate|].
  destruct (isDigit c); [|discriminate].
  destruct (n >=? cutoff10); [congruence|].
  destruct (_ || _); [congruence|]. eauto.
Qed.

Lemma ParseUint_loop_ok mv s : forall n un,
  ParseUint_loop mv s n = (un, None) ->
  allDigits s = true /\ (0 <= n -> 0 <= un).
Proof.
  induction s as [|c r IH]; simpl; intros n un H.
  - inversion H; subst. split; [reflexivity|trivial].
  - destruct (isDigit c); [|discriminate].
    destruct (n >=? cutoff10); [discriminate|].
    destruct (_ || _); [discriminate|].
    apply IH in H as [Hr Hm]. split; [exact Hr|].
    intros _. apply Hm. apply Z.mod_pos_bound. reflexivity.
Qed.

Lemma allDigits_Count s c : allDigits s = true -> isDigit c = false -> strings.Count s c = 0%nat.
Proof.
  induction s as [|a r IH]; simpl; [reflexivity|].
  intros H Hc. apply andb_prop in H as [Ha Hr].
  destruct (Ascii.eqb a c) eqn:E; [apply Ascii.eqb_eq in E; congruence|].
  now rewrite IH.
Qed.

(** A string that [Atoi] accepts is an optional sign followed by
    decimal digits; without a minus sign the value is not negative. *)
Lemma Atoi_ok s n :
  Atoi s = (n, None) ->
  exists c r, s = String c r /\
    allDigits (if Ascii.eqb c "-" || Ascii.eqb c "+" then r else s) = true /\
    (Ascii.eqb c "-" = false -> 0 <= n).
Proof.
  unfold Atoi. destruct s as [|c r]; [simpl; discriminate|].
  exists c, r. split; [reflexivity|].
  destruct (_ && _) in H.
  - destruct (Ascii.eqb c "-" || Ascii.eqb c "+") eqn:Hs.
    + simpl in H. destruct (_ <? 1); [discriminate|].
      destruct (Atoi_fast_loop r 0) as [m|] eqn:Hl; [|discriminate].
      apply Atoi_fast_loop_ok in Hl as [Hd Hm]. split; [exact Hd|].
      intros Hneg. rewrite Hneg in H. inversion H; subst. apply Hm. lia.
    + cbv zeta in H. cbn [andb] in H.
      destruct (Atoi_fast_loop (String c r) 0) as [m|] eqn:Hl; [|discriminate].
      apply Atoi_fast_loop_ok in Hl as [Hd Hm]. split; [exact Hd|].
      intros Hneg. rewrite Hneg in H. inversion H; subst. apply Hm. lia.
  - unfold ParseInt10 in H.
    rewrite (orb_comm (Ascii.eqb c "+")) in H.
    destruct (Ascii.eqb c "-" || Ascii.eqb c "+") eqn:Hs.
    + unfold ParseUint10 in H. destruct r as [|c' r']; [discriminate|].
      destruct (ParseUint_loop _ _ _) as [un [[]|]] eqn:Hl; [discriminate| |].
      * apply ParseUint_loop_range in Hl. subst un.
        destruct (Ascii.eqb c "-"); simpl in H; discriminate.
      * apply ParseUint_loop_ok in Hl as [Hd Hm]. split; [exact Hd|].
        intros Hneg. rewrite Hneg in H. simpl in H.
        destruct (un >=? _); inversion H; subst. apply Hm. lia.
    + unfold ParseUint10 in H.
      destruct (ParseUint_loop _ _ _) as [un [[]|]] eqn:Hl; [discriminate| |].
      * apply ParseUint_loop_range in Hl. subst un.
        destruct (Ascii.eqb c "-"); simpl in H; discriminate.
      * apply ParseUint_loop_ok in Hl as [Hd Hm]. split; [exact Hd|].
        intros Hneg. rewrite Hneg in H. simpl in H.
        destruct (un >=? _); inversion H; subst. apply Hm. lia.
Qed.

End AtoiFacts.

(** ** The parsers *)
Section Parsers.
Import strings strconv.

Lemma length3 {A} (l : list A) :
  length l = 3%nat -> exists a b c, l = [a; b; c].
Proof. destruct l as [|a [|b [|c [|]]]]; try discriminate. eauto. Qed.

Lemma length2 {A} (l : list A) :
  length l = 2%nat -> exists a b, l = [a; b].
Proof. destruct l as [|a [|b [|]]]; try discriminate. eauto. Qed.

(** C6, as the code has it.  [GetDIDChain] looks at the number of colons
    only: a string of three colon-free segments yields the middle one
    whatever the first segment is (so in particular for the first
    segment "did"), every string with two colons is of that form, and
    every string whose number of colons is not two is rejected. *)
Theorem GetDIDChain_three_segments :
  (forall p chain id,
      Count p ":" = 0%nat -> Count chain ":" = 0%nat -> Count id ":" = 0%nat ->
      GetDIDChain (p ++ ":" ++ chain ++ ":" ++ id) = (chain, None)) /\
  (forall s, Count s ":" = 2%nat ->
      exists p chain id,
        s = p ++ ":" ++ chain ++ ":" ++ id /\
        Count p ":" = 0%nat /\ Count chain ":" = 0%nat /\ Count id ":" = 0%nat) /\
  (forall s, Count s ":" <> 2%nat -> GetDIDChain s = ("", Some InvalidDidFormat)).
Proof.
  split; [|split].
  - intros p chain id Hp Hc Hi. unfold GetDIDChain.
    change (p ++ ":" ++ chain ++ ":" ++ id)
      with (p ++ String ":" (chain ++ String ":" id)).
    rewrite (Split_app p _ _ Hp), (Split_app chain _ _ Hc), (Split_no_sep id _ Hi).
    reflexivity.
  - intros s Hs.
    pose proof (Split_length s ":") as Hl. rewrite Hs in Hl.
    apply length3 in Hl as (p & chain & id & E).
    pose proof (Split_pieces s ":") as Hf. rewrite E in Hf.
    pose proof (Split_join s ":") as Hj. rewrite E in Hj.
    exists p, chain, id.
    rewrite !Forall_cons in Hf. destruct Hf as (Hp & Hc & Hi & _).
    split; [symmetry; exact Hj|]. auto.
  - intros s Hs. unfold GetDIDChain. rewrite Split_length.
    destruct (Nat.eqb_spec (S (Count s ":")) 3); [lia|reflexivity].
Qed.

(** C6, counterexample: a string that is not of the form
    did:<chain>:<identifier> and is not a parse error. *)
Lemma GetDIDChain_prefix_unchecked :
  String.prefix "did:" "foo:ont:bar" = false /\
  GetDIDChain "foo:ont:bar" = ("ont", None).
Proof. split; reflexivity. Qed.

(** C9, as the code has it.  The label between '#' and '-' is never
    compared with "key": for A without '#', B without '#' and '-', and N
    an integer accepted by [Atoi] that has no minus sign, the parser
    returns A and the value of N. *)
Theorem getDIDKeyAndIndex_any_label A B N n :
  Count A "#" = 0%nat -> Count B "#" = 0%nat -> Count B "-" = 0%nat ->
  Atoi N = (n, None) -> Count N "-" = 0%nat ->
  getDIDKeyAndIndex (A ++ "#" ++ B ++ "-" ++ N) = (A, n, None).
Proof.
  intros HA HB1 HB2 HN Hminus.
  destruct (Atoi_ok _ _ HN) as (c & r & -> & Hd & _).
  assert (Hc : Ascii.eqb c "-" = false).
  { simpl in Hminus. destruct (Ascii.eqb c "-"); [discriminate|reflexivity]. }
  assert (Hhash : Count (String c r) "#" = 0%nat).
  { rewrite Hc in Hd. simpl in Hd.
    destruct (Ascii.eqb c "+") eqn:Hp.
    - apply Ascii.eqb_eq in Hp. subst c. simpl.
      now apply allDigits_Count.
    - now apply allDigits_Count. }
  unfold getDIDKeyAndIndex.
  change (A ++ "#" ++ B ++ "-" ++ String c r)
    with (A ++ String "#" (B ++ String "-" (String c r))).
  rewrite (Split_app A _ _ HA).
  rewrite (Split_no_sep (B ++ String "-" (String c r)) "#").
  2:{ rewrite Count_app. change (String "-" (String c r)) with ("-" ++ String c r).
      rewrite Count_app, HB1, Hhash. reflexivity. }
  cbn [length Nat.eqb negb nth].
  rewrite (Split_app B _ _ HB2), (Split_no_sep _ _ Hminus).
  cbn [length Nat.eqb negb nth]. rewrite HN. reflexivity.
Qed.

Lemma getDIDKeyAndIndex_any_label_witness :
  getDIDKeyAndIndex "did:ont:abc#foo-3" = ("did:ont:abc", 3, None).
Proof.
  apply (getDIDKeyAndIndex_any_label "did:ont:abc" "foo" "3" 3); reflexivity.
Defined.

(** C9, counterexample: N = "-1" is an integer for [Atoi] and B = "b#c"
    has no '-', yet both references are rejected. *)
Lemma getDIDKeyAndIndex_rejects_minus_and_hash :
  (Count "did:ont:abc" "#" = 0%nat /\ Count "key" "-" = 0%nat /\
   Atoi "-1" = (-1, None) /\
   getDIDKeyAndIndex ("did:ont:abc" ++ "#" ++ "key" ++ "-" ++ "-1")
     = ("", 0, Some MalformedReference)) /\
  (Count "a" "#" = 0%nat /\ Count "b#c" "-" = 0%nat /\
   Atoi "1" = (1, None) /\
   getDIDKeyAndIndex ("a" ++ "#" ++ "b#c" ++ "-" ++ "1")
     = ("", 0, Some MalformedReference)).
Proof. repeat split; reflexivity. Qed.

(** C10.  A reference that the parser accepts has a key index that is
    not negative: the piece handed to [Atoi] holds no '-'. *)
Theorem getDIDKeyAndIndex_index_nonneg vm d idx :
  getDIDKeyAndIndex vm = (d, idx, None) -> 0 <= idx.
Proof.
  unfold getDIDKeyAndIndex.
  destruct (Nat.eqb_spec (length (Split vm "#")) 2) as [H2|]; [|discriminate].
  cbn [negb].
  destruct (Nat.eqb_spec (length (Split (nth 1 (Split vm "#") "") "-")) 2)
    as [H2'|]; [|discriminate].
  cbn [negb].
  apply length2 in H2' as (k0 & k1 & E).
  pose proof (Split_pieces (nth 1 (Split vm "#") "") "-") as Hf.
  rewrite E in *. cbn [nth].
  rewrite !Forall_cons in Hf. destruct Hf as (_ & Hk1 & _).
  destruct (Atoi k1) as [n [e|]] eqn:HA; [discriminate|].
  intros H. inversion H; subst.
  destruct (Atoi_ok _ _ HA) as (c & r & -> & _ & Hn).
  apply Hn. simpl in Hk1. destruct (Ascii.eqb c "-"); [discriminate|reflexivity].
Qed.

Lemma getDIDKeyAndIndex_index_nonneg_witness :
  getDIDKeyAndIndex "did:ont:abc#key-7" = ("did:ont:abc", 7, None) /\ 0 <= 7.
Proof.
  split; [reflexivity|].
  apply (getDIDKeyAndIndex_index_nonneg "did:ont:abc#key-7" "did:ont:abc" 7).
  reflexivity.
Defined.

End Parsers.



(** ** The loop over the presentations *)

Ltac unfold_M :=
  unfold mbind, M_bind, bind, mret, M_ret, check, deref, call, ret, fail, panic in *.

Section Loop.
Context {W : Type}.
Variables (chain : string) (processor : did.DidProcessor W)
          (d : string) (i : Z) (req : slice VCFilter.t).

Lemma verifyPresentations_log vps : forall st out st',
  verifyPresentations chain processor d i req vps st = (out, st') ->
  exists evs, calls st' = (calls st ++ evs)%list /\ vp_log chain d i req vps evs out.
Proof.
  induction vps as [|vp rest IH]; intros st out st' H; simpl in H.
  - inversion H; subst. exists []. rewrite app_nil_r. split; [reflexivity|constructor].
  - unfold_M.
    destruct (did.VerifyPresentation processor d i vp req (world st)) as [[e|] w'] eqn:Hc.
    + inversion H; subst. cbn [calls]. eexists. split; [reflexivity|constructor].
    + apply IH in H as (evs & Hcalls & Hlog). cbn [calls] in Hcalls.
      exists (VerifyPresentation chain d i vp req None :: evs).
      split; [now rewrite Hcalls, <- app_assoc|now constructor].
Qed.

Lemma vp_log_In vps evs out ev :
  vp_log chain d i req vps evs out -> In ev evs ->
  exists vp err, ev = VerifyPresentation chain d i vp req err /\ In vp vps.
Proof.
  induction 1 as [|vp rest e|vp rest evs out _ IH]; simpl; intros Hin.
  - contradiction.
  - destruct Hin as [<-|[]]. eauto.
  - destruct Hin as [<-|Hin]; [eauto|].
    destruct (IH Hin) as (vp' & err & -> & Hvp). eauto.
Qed.

Lemma vp_log_Ok vps evs :
  vp_log chain d i req vps evs (Ok tt) ->
  evs = map (fun vp => VerifyPresentation chain d i vp req None) vps.
Proof.
  intros H. remember (Ok tt) as out eqn:E.
  induction H as [| |vp rest evs out _ IH]; simpl; [reflexivity|discriminate|].
  now rewrite IH.
Qed.

Lemma vp_log_Err vps evs out c' d' i' vp' req' e :
  vp_log chain d i req vps evs out ->
  In (VerifyPresentation c' d' i' vp' req' (Some e)) evs -> out = Err e.
Proof.
  induction 1 as [|vp rest e0|vp rest evs out _ IH]; simpl; intros Hin.
  - contradiction.
  - destruct Hin as [E|[]]. now inversion E.
  - destruct Hin as [E|Hin]; [discriminate|auto].
Qed.

(** The loop on presentations that the processor accepts in turn, and
    on a list whose first rejected presentation is [vp]. *)
Lemma verifyPresentations_all_verify vps : forall (st : State W) w',
  all_verify processor d i req vps (world st) w' ->
  verifyPresentations chain processor d i req vps st =
    (Ok tt,
     {| world := w';
        calls := calls st ++
                 map (fun vp => VerifyPresentation chain d i vp req None) vps |}).
Proof.
  induction vps as [|vp rest IH]; intros st w' H;
    inversion H as [|? ? ? w1 ? Hv Hrest]; subst; simpl.
  - unfold_M. destruct st. cbn [world calls]. now rewrite app_nil_r.
  - unfold_M. rewrite Hv. cbn [world calls].
    rewrite (IH _ w'); [|exact Hrest]. cbn [world calls].
    now rewrite <- app_assoc.
Qed.

Lemma verifyPresentations_rejects pre vp post : forall (st : State W) w3 e w4,
  all_verify processor d i req pre (world st) w3 ->
  did.VerifyPresentation processor d i vp req w3 = (Some e, w4) ->
  verifyPresentations chain processor d i req (pre ++ vp :: post) st =
    (Err e,
     {| world := w4;
        calls := calls st ++
                 map (fun vp => VerifyPresentation chain d i vp req None) pre ++
                 [VerifyPresentation chain d i vp req (Some e)] |}).
Proof.
  induction pre as [|p rest IH]; intros st w3 e w4 H Hrej;
    inversion H as [|? ? ? w1 ? Hv Hrest]; subst; simpl.
  - unfold_M. rewrite Hrej. reflexivity.
  - unfold_M. rewrite Hv. cbn [world calls].
    rewrite (IH _ w3 e w4); [|exact Hrest|exact Hrej]. cbn [world calls].
    now rewrite <- app_assoc.
Qed.

End Loop.

(** ** The challenge issuer and the response validator *)
Section SdkFacts.
Context {W : Type}.
Variable K : Consts.
Variable EqualFold : string -> string -> bool.
Variable json_Marshal : ClientResponseMsg.t -> Bytes + string.

Abbreviation GenerateChallenge := (sdk.GenerateChallenge (W := W) K EqualFold).
Abbreviation ValidateClientResponse :=
  (sdk.ValidateClientResponse (W := W) K EqualFold json_Marshal).
Abbreviation validateClientResponse := (sdk.validateClientResponse K EqualFold).

(** C5.  [GenerateChallenge] checks the version, then the type, then
    the action, and returns the error of the first check that fails
    without calling the nonce authority.  When the three checks pass it
    mints one nonce for the requested action and returns the hello with
    the supported version, the server-hello tag, that nonce, the
    configured server descriptor, chains and algorithms, and the filters
    the configuration has for the action (nil when it has none). *)
Theorem GenerateChallenge_checks_then_mints (s : OntLoginSdk W) (req : ClientHello.t)
    (st : State W) :
  (EqualFold (ClientHello.Ver req) (SYS_VER K) = false ->
     GenerateChallenge s req st = (Err WrongVersion, st)) /\
  (EqualFold (ClientHello.Ver req) (SYS_VER K) = true ->
   EqualFold (ClientHello.Type_ req) (TYPE_CLIENT_HELLO K) = false ->
     GenerateChallenge s req st = (Err TypeNotSupported, st)) /\
  (EqualFold (ClientHello.Ver req) (SYS_VER K) = true ->
   EqualFold (ClientHello.Type_ req) (TYPE_CLIENT_HELLO K) = true ->
   ClientHello.Action req <> ACTION_AUTHORIZATION K ->
   ClientHello.Action req <> ACTION_CERTIFICATION K ->
     GenerateChallenge s req st = (Err ActionNotSupported, st)) /\
  (EqualFold (ClientHello.Ver req) (SYS_VER K) = true ->
   EqualFold (ClientHello.Type_ req) (TYPE_CLIENT_HELLO K) = true ->
   ClientHello.Action req = ACTION_AUTHORIZATION K \/
   ClientHello.Action req = ACTION_CERTIFICATION K ->
     GenerateChallenge s req st =
       let '(nonce, w') := genRandomNonceFunc s (ClientHello.Action req) (world st) in
       (Ok {| ServerHello.Ver := SYS_VER K;
              ServerHello.Type_ := TYPE_SERVER_HELLO K;
              ServerHello.Nonce := nonce;
              ServerHello.Server := ServerInfo (conf s);
              ServerHello.Chain := Chain (conf s);
              ServerHello.Alg := Alg (conf s);
              ServerHello.VCFilters := VCFilters (conf s) !! ClientHello.Action req |},
        {| world := w';
           calls := calls st ++ [GenNonce (ClientHello.Action req) nonce] |})).
Proof.
  unfold sdk.GenerateChallenge, validateClientHello. unfold_M.
  repeat split.
  - intros ->. reflexivity.
  - intros -> ->. reflexivity.
  - intros -> -> Ha Hc. cbn [negb].
    apply Z.eqb_neq in Ha, Hc. rewrite Ha, Hc. reflexivity.
  - intros -> -> Hac. cbn [negb].
    assert (E : negb (ClientHello.Action req =? ACTION_AUTHORIZATION K)
                && negb (ClientHello.Action req =? ACTION_CERTIFICATION K) = false).
    { destruct Hac as [->| ->]; rewrite Z.eqb_refl; cbn [negb andb];
        [reflexivity|apply andb_false_r]. }
    rewrite E.
    destruct (genRandomNonceFunc s (ClientHello.Action req) (world st)) as [nonce w'].
    destruct (VCFilters (conf s) !! ClientHello.Action req); reflexivity.
Qed.


(** *** The shape of a validation

    A run of [ValidateClientResponse] from the start state stops
    before the nonce lookup with an empty call log, or after the nonce
    lookup without a call of the processor, or it reaches [VerifySig],
    and then possibly the loop over the presentations. *)
Section Run.
Variables (s : OntLoginSdk W) (res : ClientResponse.t) (w : W).
Abbreviation nonceOf := (ClientResponse.Nonce res).

Lemma ValidateClientResponse_inv out st' :
  ValidateClientResponse s res (start w) = (out, st') ->
  (calls st' = [] /\ exists e, out = Err e) \/
  (exists action err w1,
      getActionByNonce s nonceOf w = ((action, err), w1) /\
      calls st' = [GetAction nonceOf action err] /\ out <> Ok tt) \/
  reached_VerifySig json_Marshal s res w out (calls st').
Proof.
  unfold sdk.ValidateClientResponse, start. unfold_M.
  intros H.
  destruct (validateClientResponse res) as [e|]; [inversion H; subst; eauto|].
  pose proof (eq_refl (proofDid res)) as Hd. pose proof (eq_refl (proofIndex res)) as Hi.
  unfold proofDid in Hd at 1. unfold proofIndex in Hi at 1.
  destruct (getDIDKeyAndIndex _) as [[d i] e0]. cbn [fst snd] in Hd, Hi.
  destruct (EqualFold d _); cbn [negb] in H; [|inversion H; subst; eauto].
  pose proof (eq_refl (GetDIDChain d)) as Hc. rewrite Hd in Hc at 2.
  destruct (GetDIDChain d) as [chain [e|]]; [inversion H; subst; eauto|].
  cbn [world calls] in H.
  destruct (getActionByNonce s nonceOf w) as [[action err] w1] eqn:Hn.
  cbn [fst snd app] in H.
  destruct err as [e|].
  { inversion H; subst. right; left. do 3 eexists. repeat split; [discriminate]. }
  destruct (ServerInfo (conf s)) as [si|] eqn:Hsi; cbn beta iota in H.
  2:{ inversion H; subst. right; left. do 3 eexists. repeat split; discriminate. }
  destruct (hex.DecodeString _) as [sigdata|e] eqn:Hhex.
  2:{ inversion H; subst. right; left. do 3 eexists. repeat split; discriminate. }
  destruct (json_Marshal _) as [data|e] eqn:Hm.
  2:{ inversion H; subst. right; left. do 3 eexists. repeat split; discriminate. }
  destruct (didProcessors s !! chain) as [processor|] eqn:Hp.
  2:{ inversion H; subst. right; left. do 3 eexists. repeat split; discriminate. }
  cbn [world calls] in H.
  destruct (did.VerifySig processor d i data sigdata w1) as [verr w2] eqn:Hv.
  cbn [app] in H. right; right. subst d i.
  eapply (reached _ _ _ _ _ _ action w1 w2 si sigdata data chain processor verr); eauto.
  destruct verr as [e|].
  - inversion H; subst. split; reflexivity.
  - destruct (0 <? length (ClientResponse.VPs res))%nat eqn:Hlen.
    + apply verifyPresentations_log in H as (evs & Hcalls & Hlog).
      cbn [calls] in Hcalls. exists evs. split; [exact Hcalls|exact Hlog].
    + inversion H; subst. exists []. split; [reflexivity|].
      destruct (ClientResponse.VPs res); [constructor|discriminate].
Qed.

End Run.

(** C1, as the code has it.  The bytes that [ValidateClientResponse]
    hands to [VerifySig] are the serialization of the message type of
    the response, the name, URL and DID of the configured server, the
    nonce of the response, the DID of the verification method and the
    creation time of the proof: these five and nothing else; the
    protocol version is not among them. *)
Theorem ValidateClientResponse_signed_message (s : OntLoginSdk W)
    (res : ClientResponse.t) (w : W) out st' chain d i data sigdata err :
  ValidateClientResponse s res (start w) = (out, st') ->
  In (VerifySig chain d i data sigdata err) (calls st') ->
  exists si,
    ServerInfo (conf s) = Some si /\
    json_Marshal
      {| ClientResponseMsg.Type_ := ClientResponse.Type_ res;
         ClientResponseMsg.Server :=
           {| ServerInfoToSign.Name := ServerInfo.Name si;
              ServerInfoToSign.Url := ServerInfo.Url si;
              ServerInfoToSign.Did := ServerInfo.Did si |};
         ClientResponseMsg.Nonce := ClientResponse.Nonce res;
         ClientResponseMsg.Did := proofDid res;
         ClientResponseMsg.Created := Proof.Created (ClientResponse.Proof res) |}
      = inl data.
Proof.
  intros Hrun Hin.
  destruct (ValidateClientResponse_inv _ _ _ _ _ Hrun)
    as [[Hc _]|[(a & e & w1 & _ & Hc & _)|R]].
  - rewrite Hc in Hin. destruct Hin.
  - rewrite Hc in Hin. destruct Hin as [E|[]]. discriminate.
  - destruct R as [action w1 w2 si sg dt ch p verr _ Hsi _ Hmsg _ _ _ Hrest].
    exists si. split; [exact Hsi|].
    destruct verr as [e|].
    + destruct Hrest as [_ Hlog]. rewrite Hlog in Hin.
      destruct Hin as [E|[E|[]]]; [discriminate|]. inversion E; subst. exact Hmsg.
    + destruct Hrest as (evs & Hlog & Hvp). rewrite Hlog in Hin.
      destruct Hin as [E|[E|Hin]]; [discriminate| |].
      * inversion E; subst. exact Hmsg.
      * destruct (vp_log_In _ _ _ _ _ _ _ _ Hvp Hin) as (vp & e & E & _). discriminate.
Qed.

(** C3, as the code has it.  For a response that passed the format
    check and the DID comparison: a DID that is not made of three
    segments is rejected before the nonce lookup.  When the chain of
    the DID has no processor in the registry, the registry is read last:
    a nonce that the authority rejects gives NonceInvalid, a nil server
    descriptor a panic, a signature that is not hex the decoding error
    and a message that does not serialize the encoding error, all of
    them although the chain is not registered; UnsupportedChain is the
    result exactly when none of these happens.  In every case the nonce
    lookup is the only call: no processor is called. *)
Theorem ValidateClientResponse_chain_lookup_order (s : OntLoginSdk W)
    (res : ClientResponse.t) (w : W) :
  validateClientResponse res = None ->
  EqualFold (proofDid res) (ClientResponse.Did res) = true ->
  (forall e, (GetDIDChain (proofDid res)).2 = Some e ->
     ValidateClientResponse s res (start w) = (Err e, start w)) /\
  (forall chain action err w1,
     GetDIDChain (proofDid res) = (chain, None) ->
     didProcessors s !! chain = None ->
     getActionByNonce s (ClientResponse.Nonce res) w = ((action, err), w1) ->
     let st1 := {| world := w1;
                   calls := [GetAction (ClientResponse.Nonce res) action err] |} in
     (err <> None -> ValidateClientResponse s res (start w) = (Err NonceInvalid, st1)) /\
     (err = None ->
      forall si sigdata data,
        ServerInfo (conf s) = Some si ->
        hex.DecodeString (Proof.Value (ClientResponse.Proof res)) = inl sigdata ->
        json_Marshal (signedMsg si res) = inl data ->
        ValidateClientResponse s res (start w) = (Err (UnsupportedChain chain), st1)) /\
     (err = None -> ServerInfo (conf s) = None ->
        ValidateClientResponse s res (start w) = (Panic, st1)) /\
     (err = None ->
      forall si e,
        ServerInfo (conf s) = Some si ->
        hex.DecodeString (Proof.Value (ClientResponse.Proof res)) = inr e ->
        ValidateClientResponse s res (start w) = (Err (SignatureDecodeFailed e), st1)) /\
     (err = None ->
      forall si sigdata e,
        ServerInfo (conf s) = Some si ->
        hex.DecodeString (Proof.Value (ClientResponse.Proof res)) = inl sigdata ->
        json_Marshal (signedMsg si res) = inr e ->
        ValidateClientResponse s res (start w) = (Err (MessageEncodingFailed e), st1)) /\
     ((ValidateClientResponse s res (start w)).2 = st1) /\
     ((ValidateClientResponse s res (start w)).1 = Err (UnsupportedChain chain) <->
      err = None /\
      exists si sigdata data,
        ServerInfo (conf s) = Some si /\
        hex.DecodeString (Proof.Value (ClientResponse.Proof res)) = inl sigdata /\
        json_Marshal (signedMsg si res) = inl data)).
Proof.
  unfold signedMsg, proofDid, sdk.ValidateClientResponse, start. unfold_M.
  intros Hfmt. rewrite Hfmt.
  destruct (getDIDKeyAndIndex _) as [[d i] e0]. cbn [fst snd].
  intros Heq. rewrite Heq. cbn [negb]. split.
  - intros e He. destruct (GetDIDChain d) as [c o]. cbn [snd] in He. subst o. reflexivity.
  - intros chain action err w1 Hc Hp Hn. rewrite Hc. cbn [world calls].
    rewrite Hn. cbn [fst snd app].
    split; [|split; [|split; [|split; [|split; [|split]]]]].
    + intros Herr. destruct err; [reflexivity|contradiction].
    + intros -> si sigdata data Hsi Hhex Hmsg.
      rewrite Hsi, Hhex, Hmsg, Hp. reflexivity.
    + intros -> Hsi. rewrite Hsi. reflexivity.
    + intros -> si e Hsi Hhex. rewrite Hsi, Hhex. reflexivity.
    + intros -> si sigdata e Hsi Hhex Hmsg. rewrite Hsi, Hhex, Hmsg. reflexivity.
    + destruct err; [reflexivity|].
      destruct (ServerInfo (conf s)); [|reflexivity]. cbn beta iota.
      destruct (hex.DecodeString _); [|reflexivity].
      destruct (json_Marshal _); [|reflexivity].
      rewrite Hp. reflexivity.
    + destruct err as [e|].
      { split; [discriminate|]. intros [? _]. discriminate. }
      destruct (ServerInfo (conf s)) as [si|]; cbn beta iota.
      2:{ split; [discriminate|]. intros (_ & ? & ? & ? & ? & _). discriminate. }
      destruct (hex.DecodeString _) as [sigdata|e].
      2:{ split; [discriminate|]. intros (_ & ? & ? & ? & _ & ? & _). discriminate. }
      destruct (json_Marshal _) as [data|e] eqn:Hm.
      2:{ split; [discriminate|]. intros (_ & si' & ? & ? & Hsi' & _ & Hm').
          inversion Hsi'; subst si'. rewrite Hm in Hm'. discriminate. }
      rewrite Hp. split; [|reflexivity].
      intros _. split; [reflexivity|]. exists si, sigdata, data. auto.
Qed.

(** C4, as the code has it.  Every call of [VerifyPresentation] made by
    [ValidateClientResponse] is for a presentation of the response, and
    receives the whole filter list that the configuration has for the
    action of the nonce (nil when it has none): no filter is left out,
    whatever its required flag. *)
Theorem ValidateClientResponse_passes_all_filters (s : OntLoginSdk W)
    (res : ClientResponse.t) (w : W) out st' chain d i vp req err :
  ValidateClientResponse s res (start w) = (out, st') ->
  In (VerifyPresentation chain d i vp req err) (calls st') ->
  exists action w1,
    getActionByNonce s (ClientResponse.Nonce res) w = ((action, None), w1) /\
    req = VCFilters (conf s) !! action /\
    In vp (ClientResponse.VPs res).
Proof.
  intros Hrun Hin.
  destruct (ValidateClientResponse_inv _ _ _ _ _ Hrun)
    as [[Hc _]|[(a & e & w1 & _ & Hc & _)|R]].
  - rewrite Hc in Hin. destruct Hin.
  - rewrite Hc in Hin. destruct Hin as [E|[]]. discriminate.
  - destruct R as [action w1 w2 si sg dt ch p verr Hn _ _ _ _ _ _ Hrest].
    exists action, w1. split; [exact Hn|].
    destruct verr as [e|].
    + destruct Hrest as [_ Hlog]. rewrite Hlog in Hin.
      destruct Hin as [E|[E|[]]]; discriminate.
    + destruct Hrest as (evs & Hlog & Hvp). rewrite Hlog in Hin.
      destruct Hin as [E|[E|Hin]]; [discriminate|discriminate|].
      destruct (vp_log_In _ _ _ _ _ _ _ _ Hvp Hin) as (vp' & e & E & Hvps).
      inversion E; subst. split; [reflexivity|exact Hvps].
Qed.

(** A run that passes every step up to the signature check. *)
Lemma ValidateClientResponse_to_VerifySig (s : OntLoginSdk W)
    (res : ClientResponse.t) (w : W)
    chain action w1 si sigdata data processor verr w2 :
  validateClientResponse res = None ->
  EqualFold (proofDid res) (ClientResponse.Did res) = true ->
  GetDIDChain (proofDid res) = (chain, None) ->
  getActionByNonce s (ClientResponse.Nonce res) w = ((action, None), w1) ->
  ServerInfo (conf s) = Some si ->
  hex.DecodeString (Proof.Value (ClientResponse.Proof res)) = inl sigdata ->
  json_Marshal (signedMsg si res) = inl data ->
  didProcessors s !! chain = Some processor ->
  did.VerifySig processor (proofDid res) (proofIndex res) data sigdata w1 = (verr, w2) ->
  ValidateClientResponse s res (start w) =
    let st2 :=
      {| world := w2;
         calls := [GetAction (ClientResponse.Nonce res) action None;
                   VerifySig chain (proofDid res) (proofIndex res) data sigdata verr] |} in
    match verr with
    | Some e => (Err e, st2)
    | None =>
        if (0 <? length (ClientResponse.VPs res))%nat then
          verifyPresentations chain processor (proofDid res) (proofIndex res)
            (VCFilters (conf s) !! action) (ClientResponse.VPs res) st2
        else (Ok tt, st2)
    end.
Proof.
  unfold signedMsg, proofDid, proofIndex, sdk.ValidateClientResponse, start. unfold_M.
  intros Hfmt. rewrite Hfmt.
  destruct (getDIDKeyAndIndex _) as [[d i] e0]. cbn [fst snd].
  intros Heq Hc Hn Hsi Hhex Hmsg Hp Hv.
  rewrite Heq. cbn [negb]. rewrite Hc. cbn [world calls].
  rewrite Hn. cbn [fst snd app]. rewrite Hsi, Hhex, Hmsg, Hp.
  cbn [world calls]. rewrite Hv. cbn [app].
  destruct verr; [reflexivity|].
  destruct (0 <? length (ClientResponse.VPs res))%nat; reflexivity.
Qed.

(** C8.  [VerifyPresentation] is called only for presentations that the
    response carries, so never when it carries none; an error returned
    by any such call is the result of the whole validation; and the
    validation succeeds only if every presentation has been verified
    without error, in order.  For a response that passed every step up
    to a signature check that returned no error: with no presentation
    it is accepted and [VerifyPresentation] is not called; when the
    processor accepts every presentation in turn it is accepted after
    one call for each; and when the processor rejects one presentation,
    having accepted those before it, the error of that call is the
    result of the validation, whatever the later presentations are. *)
Theorem ValidateClientResponse_presentations_all_or_nothing (s : OntLoginSdk W)
    (res : ClientResponse.t) (w : W) :
  (forall out st',
   ValidateClientResponse s res (start w) = (out, st') ->
   (forall chain d i vp req err,
      In (VerifyPresentation chain d i vp req err) (calls st') ->
      In vp (ClientResponse.VPs res)) /\
   (forall chain d i vp req e,
      In (VerifyPresentation chain d i vp req (Some e)) (calls st') ->
      out = Err e) /\
   (out = Ok tt ->
      exists ev_nonce ev_sig chain req,
        calls st' =
          (ev_nonce :: ev_sig ::
           map (fun vp => VerifyPresentation chain (proofDid res) (proofIndex res) vp req None)
               (ClientResponse.VPs res))%list) /\
   (ClientResponse.VPs res = [] ->
    forall chain d i data sigdata,
      In (VerifySig chain d i data sigdata None) (calls st') -> out = Ok tt)) /\
  (forall chain action w1 si sigdata data processor w2,
   validateClientResponse res = None ->
   EqualFold (proofDid res) (ClientResponse.Did res) = true ->
   GetDIDChain (proofDid res) = (chain, None) ->
   getActionByNonce s (ClientResponse.Nonce res) w = ((action, None), w1) ->
   ServerInfo (conf s) = Some si ->
   hex.DecodeString (Proof.Value (ClientResponse.Proof res)) = inl sigdata ->
   json_Marshal (signedMsg si res) = inl data ->
   didProcessors s !! chain = Some processor ->
   did.VerifySig processor (proofDid res) (proofIndex res) data sigdata w1 = (None, w2) ->
   (ClientResponse.VPs res = [] ->
    ValidateClientResponse s res (start w) =
      (Ok tt,
       {| world := w2;
          calls := [GetAction (ClientResponse.Nonce res) action None;
                    VerifySig chain (proofDid res) (proofIndex res) data sigdata None] |})) /\
   (forall w3,
      all_verify processor (proofDid res) (proofIndex res) (VCFilters (conf s) !! action)
                 (ClientResponse.VPs res) w2 w3 ->
      ValidateClientResponse s res (start w) =
        (Ok tt,
         {| world := w3;
            calls :=
              GetAction (ClientResponse.Nonce res) action None ::
              VerifySig chain (proofDid res) (proofIndex res) data sigdata None ::
              map (fun vp => VerifyPresentation chain (proofDid res) (proofIndex res) vp
                               (VCFilters (conf s) !! action) None)
                  (ClientResponse.VPs res) |})) /\
   (forall pre vp post w3 e w4,
      ClientResponse.VPs res = (pre ++ vp :: post)%list ->
      all_verify processor (proofDid res) (proofIndex res) (VCFilters (conf s) !! action)
                 pre w2 w3 ->
      did.VerifyPresentation processor (proofDid res) (proofIndex res) vp
        (VCFilters (conf s) !! action) w3 = (Some e, w4) ->
      ValidateClientResponse s res (start w) =
        (Err e,
         {| world := w4;
            calls :=
              GetAction (ClientResponse.Nonce res) action None ::
              VerifySig chain (proofDid res) (proofIndex res) data sigdata None ::
              (map (fun vp => VerifyPresentation chain (proofDid res) (proofIndex res) vp
                                (VCFilters (conf s) !! action) None) pre ++
               [VerifyPresentation chain (proofDid res) (proofIndex res) vp
                  (VCFilters (conf s) !! action) (Some e)])%list |}))).
Proof.
  split.
  { intros out st'.
    intros Hrun.
    destruct (ValidateClientResponse_inv _ _ _ _ _ Hrun)
      as [[Hc [e0 He0]]|[(a & e & w1 & _ & Hc & Hout)|R]].
    - rewrite Hc. subst out. repeat split; try (intros; contradiction); discriminate.
    - rewrite Hc. repeat split.
      + intros ? ? ? ? ? ? [E|[]]. discriminate.
      + intros ? ? ? ? ? ? [E|[]]. discriminate.
      + intros ->. contradiction.
      + intros _ ? ? ? ? ? [E|[]]. discriminate.
    - destruct R as [action w1 w2 si sg dt ch p verr _ _ _ _ _ _ _ Hrest].
      destruct verr as [e|].
      + destruct Hrest as [-> Hlog]. rewrite Hlog. repeat split.
        * intros ? ? ? ? ? ? [E|[E|[]]]; discriminate.
        * intros ? ? ? ? ? ? [E|[E|[]]]; discriminate.
        * discriminate.
        * intros _ ? ? ? ? ? [E|[E|[]]]; discriminate.
      + destruct Hrest as (evs & Hlog & Hvp). rewrite Hlog. repeat split.
        * intros ? ? ? ? ? ? [E|[E|Hin]]; [discriminate|discriminate|].
          destruct (vp_log_In _ _ _ _ _ _ _ _ Hvp Hin) as (vp' & e & E & Hvps).
          inversion E; subst. exact Hvps.
        * intros ? ? ? ? ? ? [E|[E|Hin]]; [discriminate|discriminate|].
          eapply vp_log_Err; eassumption.
        * intros ->. apply vp_log_Ok in Hvp. subst evs. eauto.
        * intros Hnil _ _ _ _ _ _. rewrite Hnil in Hvp. now inversion Hvp.
  }
  intros chain action w1 si sigdata data processor w2 Hfmt Heq Hc Hn Hsi Hhex Hmsg Hp Hv.
  rewrite (ValidateClientResponse_to_VerifySig _ _ _ _ _ _ _ _ _ _ _ _
             Hfmt Heq Hc Hn Hsi Hhex Hmsg Hp Hv).
  cbv zeta. split; [|split].
  - intros ->. reflexivity.
  - intros w3 Hall.
    destruct (ClientResponse.VPs res) as [|vp rest] eqn:Hvps.
    + inversion Hall; subst. reflexivity.
    + cbn [length Nat.ltb Nat.leb].
      rewrite (verifyPresentations_all_verify _ _ _ _ _ _ _ w3); [reflexivity|exact Hall].
  - intros pre vp post w3 e w4 -> Hall Hrej.
    rewrite length_app. cbn [length].
    replace (0 <? length pre + S (length post))%nat with true
      by (symmetry; apply Nat.ltb_lt; lia).
    rewrite (verifyPresentations_rejects _ _ _ _ _ _ _ _ _ w3 e w4);
      [reflexivity|exact Hall|exact Hrej].
Qed.

End SdkFacts.


(** ** Scenarios in the test environment *)
Section Scenarios.
Import TestEnv.

Example scenario_accepted :
  validate loginsdk accepted (start store) =
    (Ok tt,
     {| world := [];
        calls := [GetAction "n1" 0 None;
                  VerifySig "ont" "did:ont:abc" 0 signedBytes [Byte.x01] None] |}).
Proof. vm_compute. reflexivity. Qed.

Lemma ValidateClientResponse_signed_message_witness :
  exists si,
    ServerInfo (conf loginsdk) = Some si /\
    marshal
      {| ClientResponseMsg.Type_ := "client_response";
         ClientResponseMsg.Server :=
           {| ServerInfoToSign.Name := ServerInfo.Name si;
              ServerInfoToSign.Url := ServerInfo.Url si;
              ServerInfoToSign.Did := ServerInfo.Did si |};
         ClientResponseMsg.Nonce := "n1";
         ClientResponseMsg.Did := "did:ont:abc";
         ClientResponseMsg.Created := 1635000000 |} = inl signedBytes.
Proof.
  apply (ValidateClientResponse_signed_message K strings.EqualFold_ascii marshal
           loginsdk accepted store
           (validate loginsdk accepted (start store)).1
           (validate loginsdk accepted (start store)).2
           "ont" "did:ont:abc" 0 signedBytes [Byte.x01] None).
  - vm_compute. reflexivity.
  - vm_compute. right. left. reflexivity.
Defined.

(** C1, counterexample: the responses with the versions "v1" and "V1"
    are both accepted, and so is the response with version "v2" by a
    server whose supported version is "v2"; the three runs hand the same
    bytes to [VerifySig], so the message does not hold the version. *)
Lemma signed_message_without_version :
  ClientResponse.Ver accepted <> ClientResponse.Ver upper /\
  SYS_VER K <> SYS_VER K_v2 /\
  calls (validate loginsdk accepted (start store)).2
    = [GetAction "n1" 0 None;
       VerifySig "ont" "did:ont:abc" 0 signedBytes [Byte.x01] None] /\
  calls (validate loginsdk upper (start store)).2
    = [GetAction "n1" 0 None;
       VerifySig "ont" "did:ont:abc" 0 signedBytes [Byte.x01] None] /\
  calls (ValidateClientResponse K_v2 strings.EqualFold_ascii marshal loginsdk other
           (start store)).2
    = [GetAction "n1" 0 None;
       VerifySig "ont" "did:ont:abc" 0 signedBytes [Byte.x01] None].
Proof. repeat split; try discriminate; vm_compute; reflexivity. Qed.

(** C2, the failing input: the key index "x" is not an integer, the
    parser reports it, and the validation goes on with the index 0
    through the nonce lookup and the signature check, and accepts.
    A reference without '#' ends in DidMismatch, not in the parser's
    error. *)
Theorem ValidateClientResponse_ignores_parse_error :
  getDIDKeyAndIndex "did:ont:abc#key-x"
    = ("did:ont:abc", 0, Some (AtoiError strconv.ErrSyntax)) /\
  validate loginsdk (response "v1" "did:ont:abc" "did:ont:abc#key-x" "n1" []) (start store)
    = (Ok tt,
       {| world := [];
          calls := [GetAction "n1" 0 None;
                    VerifySig "ont" "did:ont:abc" 0 signedBytes [Byte.x01] None] |}) /\
  getDIDKeyAndIndex "did:ont:abc" = ("", 0, Some MalformedReference) /\
  validate loginsdk (response "v1" "did:ont:abc" "did:ont:abc" "n1" []) (start store)
    = (Err DidMismatch, start store).
Proof. repeat split; vm_compute; reflexivity. Qed.

Lemma ValidateClientResponse_chain_lookup_order_witness :
  validate loginsdk (foreign "n1") (start store)
    = (Err (UnsupportedChain "eth"),
       {| world := []; calls := [GetAction "n1" 0 None] |}).
Proof.
  destruct (ValidateClientResponse_chain_lookup_order
              K strings.EqualFold_ascii marshal loginsdk (foreign "n1") store
              eq_refl eq_refl) as [_ Hchain].
  destruct (Hchain "eth" 0 None [] eq_refl eq_refl eq_refl) as (_ & Hunsupported & _).
  eapply (Hunsupported eq_refl serverInfo [Byte.x01]); reflexivity.
Defined.

(** C3, counterexample: the chain "eth" is not registered and the nonce
    is unknown; the result is NonceInvalid. *)
Lemma unregistered_chain_and_invalid_nonce :
  didProcessors loginsdk !! "eth" = None /\
  GetDIDChain "did:eth:abc" = ("eth", None) /\
  validate loginsdk (foreign "stale") (start store)
    = (Err NonceInvalid,
       {| world := store;
          calls := [GetAction "stale" 0 (Some (External "unknown nonce"))] |}).
Proof. repeat split; vm_compute; reflexivity. Qed.

Lemma ValidateClientResponse_passes_all_filters_witness :
  exists action w1,
    getAction "n1" store = ((action, None), w1) /\
    Some [degree; hobby] = VCFilters config !! action /\
    In "vp1" ["vp1"].
Proof.
  apply (ValidateClientResponse_passes_all_filters K strings.EqualFold_ascii marshal
           loginsdk (presenting ["vp1"]) store
           (validate loginsdk (presenting ["vp1"]) (start store)).1
           (validate loginsdk (presenting ["vp1"]) (start store)).2
           "ont" "did:ont:abc" 0 "vp1" (Some [degree; hobby]) None).
  - vm_compute. reflexivity.
  - vm_compute. right. right. left. reflexivity.
Defined.

(** C4, counterexample: the filters for action 0 are a required and an
    optional one; the processor receives both, where the subset of the
    required filters (the alternate variant's [getRequiredVcTypes]) has
    the first only. *)
Lemma optional_filter_passed :
  VCFilters config !! 0 = Some [degree; hobby] /\
  VCFilter.Required hobby = false /\
  List.filter VCFilter.Required [degree; hobby] = [degree] /\
  legacy.getRequiredVcTypes [degree; hobby] = ["DegreeCredential"] /\
  validate loginsdk (presenting ["vp1"]) (start store)
    = (Ok tt,
       {| world := [];
          calls := [GetAction "n1" 0 None;
                    VerifySig "ont" "did:ont:abc" 0 signedBytes [Byte.x01] None;
                    VerifyPresentation "ont" "did:ont:abc" 0 "vp1"
                      (Some [degree; hobby]) None] |}).
Proof. repeat split; vm_compute; reflexivity. Qed.

(** The hello of the end-to-end scenario, with the letters of the
    version and of the type in another case. *)
Example scenario_challenge :
  GenerateChallenge K strings.EqualFold_ascii loginsdk
    {| ClientHello.Ver := "V1"; ClientHello.Type_ := "Client_Hello";
       ClientHello.Action := 0 |} (start [])
  = (Ok {| ServerHello.Ver := "v1"; ServerHello.Type_ := "server_hello";
           ServerHello.Nonce := "random string";
           ServerHello.Server := Some serverInfo;
           ServerHello.Chain := ["ont"]; ServerHello.Alg := ["ES256"];
           ServerHello.VCFilters := Some [degree; hobby] |},
     {| world := [("random string", 0)]; calls := [GenNonce 0 "random string"] |}).
Proof. vm_compute. reflexivity. Qed.



(** The presentation scenario: the second of two presentations does not
    verify. *)
Lemma ValidateClientResponse_presentations_all_or_nothing_witness :
  validate loginsdk (presenting ["vp1"; "bad"; "vp3"]) (start store)
    = (Err (External "presentation verification failed"),
       {| world := [];
          calls := [GetAction "n1" 0 None;
                    VerifySig "ont" "did:ont:abc" 0 signedBytes [Byte.x01] None;
                    VerifyPresentation "ont" "did:ont:abc" 0 "vp1"
                      (Some [degree; hobby]) None;
                    VerifyPresentation "ont" "did:ont:abc" 0 "bad"
                      (Some [degree; hobby])
                      (Some (External "presentation verification failed"))] |}) /\
  validate loginsdk (presenting []) (start store)
    = (Ok tt,
       {| world := [];
          calls := [GetAction "n1" 0 None;
                    VerifySig "ont" "did:ont:abc" 0 signedBytes [Byte.x01] None] |}).
Proof.
  split.
  - destruct (ValidateClientResponse_presentations_all_or_nothing
                K strings.EqualFold_ascii marshal loginsdk
                (presenting ["vp1"; "bad"; "vp3"]) store) as [_ Hfwd].
    destruct (Hfwd "ont" 0 [] serverInfo [Byte.x01] signedBytes processor []
                eq_refl eq_refl eq_refl eq_refl eq_refl eq_refl eq_refl eq_refl eq_refl)
      as (_ & _ & Hrej).
    apply (Hrej ["vp1"] "bad" ["vp3"] [] (External "presentation verification failed") []).
    + reflexivity.
    + apply (all_verify_cons _ _ _ _ "vp1" [] [] [] []); [reflexivity|constructor].
    + reflexivity.
  - destruct (ValidateClientResponse_presentations_all_or_nothing
                K strings.EqualFold_ascii marshal loginsdk (presenting []) store)
      as [_ Hfwd].
    destruct (Hfwd "ont" 0 [] serverInfo [Byte.x01] signedBytes processor []
                eq_refl eq_refl eq_refl eq_refl eq_refl eq_refl eq_refl eq_refl eq_refl)
      as (Hnone & _).
    apply Hnone. reflexivity.
Defined.

End Scenarios.

(** * Further properties of the parsers *)
Section MoreAtoi.
Import strings strconv.

Lemma isDigit_not_sign c :
  isDigit c = true -> Ascii.eqb c "-" = false /\ Ascii.eqb c "+" = false.
Proof.
  intros H. split.
  - destruct (Ascii.eqb_spec c "-") as [->|]; [discriminate H|reflexivity].
  - destruct (Ascii.eqb_spec c "+") as [->|]; [discriminate H|reflexivity].
Qed.

Lemma isDigit_val c : isDigit c = true -> 0 <= byteVal c - 48 <= 9.
Proof. unfold isDigit. lia. Qed.

Lemma decimal_ge s : forall n, allDigits s = true -> 0 <= n -> n <= decimal n s.
Proof.
  induction s as [|c r IH]; simpl; intros n H Hn; [lia|].
  apply andb_prop in H as [Hc Hr]. apply isDigit_val in Hc.
  specialize (IH (n * 10 + (byteVal c - 48)) Hr). lia.
Qed.

Lemma decimal_lt s : forall n, allDigits s = true -> 0 <= n ->
  decimal n s < (n + 1) * 10 ^ Z.of_nat (String.length s).
Proof.
  induction s as [|c r IH]; intros n H Hn.
  - simpl. lia.
  - cbn [decimal String.length]. simpl in H.
    apply andb_prop in H as [Hc Hr]. apply isDigit_val in Hc.
    specialize (IH (n * 10 + (byteVal c - 48)) Hr).
    rewrite Nat2Z.inj_succ, Z.pow_succ_r by lia.
    assert (0 < 10 ^ Z.of_nat (String.length r)) by (apply Z.pow_pos_nonneg; lia).
    nia.
Qed.

Lemma Atoi_fast_loop_digits s : forall n,
  allDigits s = true -> Atoi_fast_loop s n = Some (decimal n s).
Proof.
  induction s as [|c r IH]; simpl; intros n H; [reflexivity|].
  apply andb_prop in H as [Hc Hr].
  rewrite fast_digit, Hc. cbn [negb].
  rewrite Z.mod_small by (apply isDigit_val in Hc; lia).
  now apply IH.
Qed.

(** The digit loop of [ParseUint] on 64 bits: the value, or the range
    error as soon as the value exceeds the largest uint64. *)
Lemma ParseUint_loop_digits s : forall n,
  allDigits s = true -> 0 <= n <= maxUint64 ->
  ParseUint_loop maxUint64 s n =
    if decimal n s <=? maxUint64 then (decimal n s, None)
    else (maxUint64, Some ErrRange).
Proof.
  unfold maxUint64.
  change (2 ^ 64) with 18446744073709551616.
  induction s as [|c r IH]; cbn [ParseUint_loop decimal]; intros n H Hn.
  - destruct (Z.leb_spec n (18446744073709551616 - 1)); [reflexivity|lia].
  - simpl in H. apply andb_prop in H as [Hc Hr]. rewrite Hc.
    pose proof (isDigit_val _ Hc) as Hd.
    pose proof (decimal_ge r (n * 10 + (byteVal c - 48)) Hr) as Hge.
    unfold cutoff10, maxUint64.
    change (2 ^ 64) with 18446744073709551616.
    change ((18446744073709551616 - 1) / 10 + 1) with 1844674407370955162.
    destruct (Z.geb_spec n 1844674407370955162) as [Hcut|Hcut].
    + destruct (Z.leb_spec (decimal (n * 10 + (byteVal c - 48)) r)
                  (18446744073709551616 - 1)); [lia|reflexivity].
    + destruct (Z_lt_le_dec (n * 10 + (byteVal c - 48)) 18446744073709551616)
        as [Hfit|Hover].
      * rewrite Z.mod_small by lia.
        destruct (Z.ltb_spec (n * 10 + (byteVal c - 48)) (n * 10)); [lia|].
        destruct (Z.gtb_spec (n * 10 + (byteVal c - 48)) (18446744073709551616 - 1));
          [lia|].
        cbn [orb]. apply IH; [exact Hr|lia].
      * replace ((n * 10 + (byteVal c - 48)) mod 18446744073709551616)
          with (n * 10 + (byteVal c - 48) - 18446744073709551616)
          by (apply (Z.mod_unique _ _ 1); lia).
        destruct (Z.ltb_spec (n * 10 + (byteVal c - 48) - 18446744073709551616)
                    (n * 10)); [|lia].
        cbn [orb].
        destruct (Z.leb_spec (decimal (n * 10 + (byteVal c - 48)) r)
                    (18446744073709551616 - 1)); [lia|reflexivity].
Qed.

(** [Atoi] on a string of digits: the decimal value when it fits an
    [int], the range error with the largest [int] otherwise. *)
Lemma Atoi_digits s :
  s <> "" -> allDigits s = true ->
  Atoi s = if decimalValue s <=? maxInt then (decimalValue s, None)
           else (maxInt, Some ErrRange).
Proof.
  intros Hne Hd. destruct s as [|c r]; [contradiction|].
  pose proof Hd as Hd0. simpl in Hd0. apply andb_prop in Hd0 as [Hc Hr].
  destruct (isDigit_not_sign _ Hc) as [Hm Hp].
  unfold Atoi, decimalValue, maxInt, IntSize.
  change (2 ^ (64 - 1) - 1) with 9223372036854775807.
  destruct (Z.ltb_spec 0 (Z.of_nat (String.length (String c r)))) as [_|Hl];
    [|simpl in Hl; lia].
  destruct (Z.ltb_spec (Z.of_nat (String.length (String c r))) 19) as [Hlen|Hlen];
    cbn [andb].
  - rewrite Hm, Hp. cbn [orb andb].
    rewrite (Atoi_fast_loop_digits _ 0 Hd).
    pose proof (decimal_lt _ 0 Hd ltac:(lia)) as Hlt.
    assert (10 ^ Z.of_nat (String.length (String c r)) <= 10 ^ 18)
      by (apply Z.pow_le_mono_r; lia).
    change (10 ^ 18) with 1000000000000000000 in *.
    destruct (Z.leb_spec (decimal 0 (String c r)) 9223372036854775807);
      [reflexivity|lia].
  - unfold ParseInt10. rewrite Hm, Hp. cbn [orb negb andb].
    unfold ParseUint10, IntSize.
    change (2 ^ 64 - 1) with maxUint64.
    rewrite (ParseUint_loop_digits _ 0 Hd) by (unfold maxUint64; lia).
    unfold maxUint64. change (2 ^ 64 - 1) with 18446744073709551615.
    change (2 ^ (64 - 1)) with 9223372036854775808.
    destruct (Z.leb_spec (decimal 0 (String c r)) 18446744073709551615).
    + destruct (Z.geb_spec (decimal 0 (String c r)) 9223372036854775808);
        destruct (Z.leb_spec (decimal 0 (String c r)) 9223372036854775807);
        try lia; reflexivity.
    + destruct (Z.leb_spec (decimal 0 (String c r)) 9223372036854775807);
        [lia|reflexivity].
Qed.


End MoreAtoi.

Section MoreParsers.
Import strings strconv.

(** X1.  What [GetDIDChain] returns: without error, the input is three
    colon-free segments and the result is the middle one; with an
    error, the result is the empty string and the input does not hold
    exactly two colons. *)
Theorem GetDIDChain_result s :
  match GetDIDChain s with
  | (chain, None) =>
      exists p id,
        s = p ++ ":" ++ chain ++ ":" ++ id /\
        Count p ":" = 0%nat /\ Count chain ":" = 0%nat /\ Count id ":" = 0%nat
  | (chain, Some e) =>
      chain = "" /\ e = InvalidDidFormat /\ Count s ":" <> 2%nat
  end.
Proof.
  unfold GetDIDChain.
  pose proof (Split_length s ":") as Hl.
  destruct (Nat.eqb_spec (length (Split s ":")) 3) as [H3|H3]; cbn [negb].
  - apply length3 in H3 as (p & chain & id & E).
    pose proof (Split_pieces s ":") as Hf. pose proof (Split_join s ":") as Hj.
    rewrite E in Hf, Hj |- *. cbn [nth].
    rewrite !Forall_cons in Hf. destruct Hf as (Hp & Hc & Hi & _).
    exists p, id. split; [symmetry; exact Hj|auto].
  - repeat split. lia.
Qed.

(** The parser on a reference whose three parts hold no separator. *)
Lemma getDIDKeyAndIndex_parts A B N :
  Count A "#" = 0%nat -> Count B "#" = 0%nat -> Count N "#" = 0%nat ->
  Count B "-" = 0%nat -> Count N "-" = 0%nat ->
  getDIDKeyAndIndex (A ++ "#" ++ B ++ "-" ++ N) =
    (A, (Atoi N).1, option_map AtoiError (Atoi N).2).
Proof.
  intros HA HB HN HB' HN'. unfold getDIDKeyAndIndex.
  change (A ++ "#" ++ B ++ "-" ++ N) with (A ++ String "#" (B ++ String "-" N)).
  rewrite (Split_app A _ _ HA).
  rewrite (Split_no_sep (B ++ String "-" N) "#").
  2:{ rewrite Count_app. change (String "-" N) with ("-" ++ N).
      rewrite Count_app, HB, HN. reflexivity. }
  cbn [length Nat.eqb negb nth].
  rewrite (Split_app B _ _ HB'), (Split_no_sep _ _ HN').
  cbn [length Nat.eqb negb nth]. destruct (Atoi N). reflexivity.
Qed.

(** X2.  A reference that the parser accepts is the returned DID, a
    '#', a label, a '-' and a piece that [Atoi] turns into the returned
    index; the DID holds no '#', the label and the last piece hold
    neither '#' nor '-'. *)
Theorem getDIDKeyAndIndex_accepts_only vm d idx :
  getDIDKeyAndIndex vm = (d, idx, None) ->
  exists label N,
    vm = d ++ "#" ++ label ++ "-" ++ N /\
    Count d "#" = 0%nat /\
    Count label "#" = 0%nat /\ Count label "-" = 0%nat /\
    Count N "#" = 0%nat /\ Count N "-" = 0%nat /\
    Atoi N = (idx, None).
Proof.
  unfold getDIDKeyAndIndex.
  destruct (Nat.eqb_spec (length (Split vm "#")) 2) as [H2|]; [|discriminate].
  cbn [negb]. apply length2 in H2 as (d0 & rest & E).
  pose proof (Split_pieces vm "#") as Hf. pose proof (Split_join vm "#") as Hj.
  rewrite E in Hf, Hj |- *. cbn [nth].
  rewrite !Forall_cons in Hf. destruct Hf as (Hd & Hrest & _).
  destruct (Nat.eqb_spec (length (Split rest "-")) 2) as [H2'|]; [|discriminate].
  cbn [negb]. apply length2 in H2' as (label & N & E').
  pose proof (Split_pieces rest "-") as Hf'. pose proof (Split_join rest "-") as Hj'.
  rewrite E' in Hf', Hj' |- *. cbn [nth].
  rewrite !Forall_cons in Hf'. destruct Hf' as (Hl & HN & _).
  destruct (Atoi N) as [n [e|]] eqn:HA; [discriminate|].
  intros H. inversion H; subst d0 n. clear H.
  exists label, N.
  simpl in Hj, Hj'. subst rest.
  change (label ++ String "-" N) with (label ++ "-" ++ N) in *.
  rewrite !Count_app in Hrest. simpl in Hrest.
  repeat split; auto; lia.
Qed.

Lemma getDIDKeyAndIndex_accepts_only_witness :
  exists label N,
    "did:ont:abc#key-7" = "did:ont:abc" ++ "#" ++ label ++ "-" ++ N /\
    Count "did:ont:abc" "#" = 0%nat /\
    Count label "#" = 0%nat /\ Count label "-" = 0%nat /\
    Count N "#" = 0%nat /\ Count N "-" = 0%nat /\
    Atoi N = (7, None).
Proof.
  apply (getDIDKeyAndIndex_accepts_only "did:ont:abc#key-7" "did:ont:abc" 7).
  reflexivity.
Defined.

(** X3.  The key index is read in base ten: for a DID without '#', a
    label without '#' and '-', and a non-empty string of digits, the
    parser returns the DID and the decimal value of the digits when the
    value fits an [int]; when it does not, it returns the DID, the
    largest [int] and the range error. *)
Theorem getDIDKeyAndIndex_decimal A B N :
  Count A "#" = 0%nat -> Count B "#" = 0%nat -> Count B "-" = 0%nat ->
  N <> "" -> allDigits N = true ->
  getDIDKeyAndIndex (A ++ "#" ++ B ++ "-" ++ N) =
    if decimalValue N <=? maxInt then (A, decimalValue N, None)
    else (A, maxInt, Some (AtoiError ErrRange)).
Proof.
  intros HA HB HB' Hne Hd.
  rewrite getDIDKeyAndIndex_parts; auto using allDigits_Count.
  rewrite (Atoi_digits N Hne Hd).
  destruct (decimalValue N <=? maxInt); reflexivity.
Qed.

Lemma getDIDKeyAndIndex_decimal_witness :
  getDIDKeyAndIndex "did:ont:abc#key-0042" = ("did:ont:abc", 42, None) /\
  getDIDKeyAndIndex "did:ont:abc#key-9223372036854775808"
    = ("did:ont:abc", 9223372036854775807, Some (AtoiError ErrRange)).
Proof.
  split.
  - apply (getDIDKeyAndIndex_decimal "did:ont:abc" "key" "0042");
      try reflexivity; discriminate.
  - apply (getDIDKeyAndIndex_decimal "did:ont:abc" "key" "9223372036854775808");
      try reflexivity; discriminate.
Defined.



End MoreParsers.

(** * Further properties of the validator *)

Lemma DecodeString_length n : forall s bs,
  (String.length s <= n)%nat -> hex.DecodeString s = inl bs ->
  String.length s = (2 * length bs)%nat.
Proof.
  induction n as [|n IH]; intros s bs Hn H.
  - destruct s; [|simpl in Hn; lia]. inversion H. reflexivity.
  - destruct s as [|p [|q r]].
    + inversion H. reflexivity.
    + simpl in H. destruct (hex.fromHexChar p); discriminate.
    + simpl in H.
      destruct (hex.fromHexChar p); [|discriminate].
      destruct (hex.fromHexChar q); [|discriminate].
      destruct (hex.DecodeString r) as [bs'|] eqn:E; [|discriminate].
      inversion H; subst. simpl in Hn |- *.
      rewrite (IH r bs'); [lia|lia|exact E].
Qed.

Section MoreLoop.
Variables (chain d : string) (i : Z) (req : slice VCFilter.t).

Lemma vp_log_processor_calls vps evs out :
  vp_log chain d i req vps evs out ->
  forallb isProcessorCall evs = true /\ countVerifySig evs = 0%nat.
Proof. induction 1; simpl; auto. Qed.

Lemma vp_log_never_panics vps evs : ~ vp_log chain d i req vps evs Panic.
Proof.
  intros H. remember Panic as out eqn:E.
  induction H; [discriminate|discriminate|auto].
Qed.

(** The presentations submitted are the first ones of the list, all of
    them when the loop ends well, and a rejected one is the last that
    was submitted. *)
Lemma vp_log_prefix vps evs out :
  vp_log chain d i req vps evs out ->
  presentationsOf evs `prefix_of` vps /\
  (out = Ok tt -> presentationsOf evs = vps) /\
  (forall c' d' i' vp' req' e,
     In (VerifyPresentation c' d' i' vp' req' (Some e)) evs ->
     last evs = Some (VerifyPresentation c' d' i' vp' req' (Some e))).
Proof.
  induction 1 as [|vp rest e|vp rest evs out Hlog (IH1 & IH2 & IH3)]; simpl.
  - repeat split; [apply prefix_nil|contradiction].
  - repeat split.
    + exists rest. reflexivity.
    + discriminate.
    + intros ? ? ? ? ? ? [E|[]]. now rewrite E.
  - repeat split.
    + now apply prefix_cons.
    + intros E. now rewrite IH2.
    + intros ? ? ? ? ? ? [E|Hin]; [discriminate|].
      rewrite last_cons. now rewrite (IH3 _ _ _ _ _ _ Hin).
Qed.

End MoreLoop.

Section MoreSdk.
Context {W : Type}.
Variable K : Consts.
Variable EqualFold : string -> string -> bool.
Variable json_Marshal : ClientResponseMsg.t -> Bytes + string.

Abbreviation Validate :=
  (sdk.ValidateClientResponse (W := W) K EqualFold json_Marshal).

(** A run of the validator, with the checks that were passed and the
    state it ends in. *)
Lemma ValidateClientResponse_run (s : OntLoginSdk W) (res : ClientResponse.t)
    (w : W) out st' :
  Validate s res (start w) = (out, st') ->
  (st' = start w /\ (exists e, out = Err e) /\ ~ prechecks K EqualFold res) \/
  (prechecks K EqualFold res /\
   exists action err w1,
     getActionByNonce s (ClientResponse.Nonce res) w = ((action, err), w1) /\
     st' = {| world := w1;
              calls := [GetAction (ClientResponse.Nonce res) action err] |} /\
     match err with
     | Some _ => out = Err NonceInvalid
     | None =>
         match ServerInfo (conf s) with
         | None => out = Panic
         | Some si =>
             match hex.DecodeString (Proof.Value (ClientResponse.Proof res)) with
             | inr e => out = Err (SignatureDecodeFailed e)
             | inl _ =>
                 match json_Marshal (signedMsg si res) with
                 | inr e => out = Err (MessageEncodingFailed e)
                 | inl _ =>
                     exists chain,
                       GetDIDChain (proofDid res) = (chain, None) /\
                       didProcessors s !! chain = None /\
                       out = Err (UnsupportedChain chain)
                 end
             end
         end
     end) \/
  (prechecks K EqualFold res /\
   reached_VerifySig json_Marshal s res w out (calls st')).
Proof.
  intros H. unfold prechecks, signedMsg.
  unfold sdk.ValidateClientResponse, start in H. unfold_M.
  destruct (sdk.validateClientResponse K EqualFold res) as [e|].
  { inversion H; subst. left. repeat split; eauto. intros [? _]. discriminate. }
  pose proof (eq_refl (proofDid res)) as Hd. pose proof (eq_refl (proofIndex res)) as Hi.
  unfold proofDid in Hd at 1. unfold proofIndex in Hi at 1.
  destruct (getDIDKeyAndIndex _) as [[d i] e0]. cbn [fst snd] in Hd, Hi.
  subst d i.
  destruct (EqualFold (proofDid res) _); cbn [negb] in H.
  2:{ inversion H; subst. left. repeat split; eauto. intros (_ & ? & _). discriminate. }
  destruct (GetDIDChain (proofDid res)) as [chain [e|]] eqn:Hchain.
  { inversion H; subst. left. repeat split; eauto. intros (_ & _ & ?). discriminate. }
  cbn [world calls snd] in H |- *.
  destruct (getActionByNonce s _ w) as [[action err] w1] eqn:Hn.
  cbn [fst snd app] in H.
  assert (Hpre : @None error = None /\ true = true /\ @None error = None) by auto.
  destruct err as [e|].
  { inversion H; subst. right; left. split; [exact Hpre|]. do 3 eexists. eauto. }
  destruct (ServerInfo (conf s)) as [si|] eqn:Hsi; cbn beta iota in H.
  2:{ inversion H; subst. right; left. split; [exact Hpre|]. do 3 eexists.
      repeat split. }
  destruct (hex.DecodeString _) as [sigdata|e] eqn:Hhex.
  2:{ inversion H; subst. right; left. split; [exact Hpre|]. do 3 eexists.
      split; [reflexivity|]. split; reflexivity. }
  destruct (json_Marshal _) as [data|e] eqn:Hm.
  2:{ inversion H; subst. right; left. split; [exact Hpre|]. do 3 eexists.
      split; [reflexivity|]. split; reflexivity. }
  destruct (didProcessors s !! chain) as [processor|] eqn:Hp.
  2:{ inversion H; subst. right; left. split; [exact Hpre|]. do 3 eexists.
      split; [reflexivity|]. split; [reflexivity|]. eauto. }
  right; right. split; [exact Hpre|].
  cbn [world calls] in H.
  destruct (did.VerifySig processor (proofDid res) (proofIndex res) data sigdata w1)
    as [verr w2] eqn:Hv.
  cbn [app] in H.
  eapply (reached _ _ _ _ _ _ action w1 w2 si sigdata data chain processor verr); eauto.
  destruct verr as [e|].
  - inversion H; subst. split; reflexivity.
  - destruct (0 <? length (ClientResponse.VPs res))%nat eqn:Hlen.
    + apply verifyPresentations_log in H as (evs & Hcalls & Hlog).
      cbn [calls] in Hcalls. exists evs. split; [exact Hcalls|exact Hlog].
    + inversion H; subst. exists []. split; [reflexivity|].
      destruct (ClientResponse.VPs res); [constructor|discriminate].
Qed.

(** X5.  The nonce authority and a validation.  When one of the
    checks before the lookup fails, the validation returns an error and
    leaves the state as it was: the authority is not asked.  Otherwise
    the lookup of the nonce of the response is the first call, every
    later call is a call of a chain processor, and a lookup that fails
    ends the validation with NonceInvalid.  No nonce is minted. *)
Theorem ValidateClientResponse_nonce_discipline (s : OntLoginSdk W)
    (res : ClientResponse.t) (w : W) out st' :
  Validate s res (start w) = (out, st') ->
  (~ prechecks K EqualFold res /\ st' = start w /\ exists e, out = Err e) \/
  (prechecks K EqualFold res /\
   exists action err w1 rest,
     getActionByNonce s (ClientResponse.Nonce res) w = ((action, err), w1) /\
     calls st' = GetAction (ClientResponse.Nonce res) action err :: rest /\
     forallb isProcessorCall rest = true /\
     (err <> None -> out = Err NonceInvalid /\ rest = [] /\ world st' = w1)).
Proof.
  intros Hrun.
  destruct (ValidateClientResponse_run _ _ _ _ _ Hrun)
    as [(-> & He & Hn)|[(Hp & a & err & w1 & Hn & -> & Hout)|(Hp & R)]].
  - left. auto.
  - right. split; [exact Hp|]. exists a, err, w1, []. cbn [calls world].
    repeat split; auto. destruct err; [exact Hout|contradiction].
  - right. split; [exact Hp|].
    destruct R as [action w1 w2 si sg dt ch p verr Hn _ _ _ _ _ _ Hrest].
    destruct verr as [e|].
    + destruct Hrest as [_ ->]. do 4 eexists.
      split; [exact Hn|]. split; [reflexivity|]. split; [reflexivity|].
      intros H. contradiction.
    + destruct Hrest as (evs & -> & Hvp). do 4 eexists.
      split; [exact Hn|]. split; [reflexivity|].
      split; [simpl; apply (vp_log_processor_calls _ _ _ _ _ _ _ Hvp)|].
      intros H. contradiction.
Qed.

(** X6.  The call of [VerifySig].  It is made at most once, after the
    checks before the lookup and a successful lookup; its DID and key
    index are those of the verification method, its chain is the middle
    segment of that DID and has a processor in the registry, and its
    signature is the hex decoding of the proof value, whose length is
    twice that of the signature.  An error it returns is the result of
    the validation, and no presentation is submitted after it. *)
Theorem ValidateClientResponse_VerifySig_call (s : OntLoginSdk W)
    (res : ClientResponse.t) (w : W) out st' chain d i data sigdata err :
  Validate s res (start w) = (out, st') ->
  In (VerifySig chain d i data sigdata err) (calls st') ->
  prechecks K EqualFold res /\
  d = proofDid res /\ i = proofIndex res /\
  GetDIDChain (proofDid res) = (chain, None) /\
  is_Some (didProcessors s !! chain) /\
  hex.DecodeString (Proof.Value (ClientResponse.Proof res)) = inl sigdata /\
  String.length (Proof.Value (ClientResponse.Proof res)) = (2 * length sigdata)%nat /\
  (exists action w1,
     getActionByNonce s (ClientResponse.Nonce res) w = ((action, None), w1)) /\
  countVerifySig (calls st') = 1%nat /\
  (forall e, err = Some e -> out = Err e /\ presentationsOf (calls st') = []).
Proof.
  intros Hrun Hin.
  destruct (ValidateClientResponse_run _ _ _ _ _ Hrun)
    as [(-> & _)|[(_ & a & e & w1 & _ & -> & _)|(Hp & R)]].
  - destruct Hin.
  - destruct Hin as [E|[]]. discriminate.
  - destruct R as [action w1 w2 si sg dt ch p verr Hn Hsi Hhex Hmsg Hch Hproc Hsig Hrest].
    assert (Hshape :
      VerifySig chain d i data sigdata err
        = VerifySig ch (proofDid res) (proofIndex res) dt sg verr /\
      countVerifySig (calls st') = 1%nat /\
      (forall e, verr = Some e -> out = Err e /\ presentationsOf (calls st') = [])).
    { destruct verr as [e|].
      - destruct Hrest as [-> Hlog]. rewrite Hlog in Hin |- *.
        destruct Hin as [E|[E|[]]]; [discriminate|].
        split; [now rewrite E|]. split; [reflexivity|].
        intros e' He'. inversion He'; subst. split; reflexivity.
      - destruct Hrest as (evs & Hlog & Hvp). rewrite Hlog in Hin |- *.
        destruct Hin as [E|[E|Hin]]; [discriminate| |].
        + split; [now rewrite E|].
          split; [|discriminate]. simpl.
          now rewrite (proj2 (vp_log_processor_calls _ _ _ _ _ _ _ Hvp)).
        + destruct (vp_log_In _ _ _ _ _ _ _ _ Hvp Hin) as (? & ? & E & _).
          discriminate. }
    destruct Hshape as (E & Hcount & Herr). inversion E; subst.
    split; [exact Hp|]. split; [reflexivity|]. split; [reflexivity|].
    split; [exact Hch|]. split; [eauto|]. split; [exact Hhex|].
    split; [eapply DecodeString_length; [reflexivity|exact Hhex]|].
    split; [eauto|]. split; [exact Hcount|exact Herr].
Qed.

(** X7.  What an accepted response has passed: the checks before the
    lookup, a successful lookup of its nonce, the decoding of its
    signature, and a call of the registered processor's [VerifySig], on
    the serialized message and with the DID and key index of the
    verification method, that returned no error; and every presentation
    of the response has been submitted. *)
Theorem ValidateClientResponse_accepted (s : OntLoginSdk W)
    (res : ClientResponse.t) (w : W) st' :
  Validate s res (start w) = (Ok tt, st') ->
  prechecks K EqualFold res /\
  exists action w1 w2 si sigdata data chain processor,
    getActionByNonce s (ClientResponse.Nonce res) w = ((action, None), w1) /\
    ServerInfo (conf s) = Some si /\
    hex.DecodeString (Proof.Value (ClientResponse.Proof res)) = inl sigdata /\
    json_Marshal (signedMsg si res) = inl data /\
    GetDIDChain (proofDid res) = (chain, None) /\
    didProcessors s !! chain = Some processor /\
    did.VerifySig processor (proofDid res) (proofIndex res) data sigdata w1
      = (None, w2) /\
    presentationsOf (calls st') = ClientResponse.VPs res.
Proof.
  intros Hrun.
  destruct (ValidateClientResponse_run _ _ _ _ _ Hrun)
    as [(_ & [e He] & _)|[(_ & a & err & w1 & _ & _ & Hout)|(Hp & R)]].
  - discriminate.
  - exfalso. destruct err; [discriminate|].
    destruct (ServerInfo (conf s)); [|discriminate].
    destruct (hex.DecodeString _); [|discriminate].
    destruct (json_Marshal _); [|discriminate].
    destruct Hout as (? & _ & _ & ?). discriminate.
  - split; [exact Hp|].
    destruct R as [action w1 w2 si sg dt ch p verr Hn Hsi Hhex Hmsg Hch Hproc Hsig Hrest].
    destruct verr as [e|]; [destruct Hrest; discriminate|].
    destruct Hrest as (evs & Hlog & Hvp).
    exists action, w1, w2, si, sg, dt, ch, p. repeat split; auto.
    rewrite Hlog. simpl.
    exact (proj1 (proj2 (vp_log_prefix _ _ _ _ _ _ _ Hvp)) eq_refl).
Qed.

(** X8.  A configuration whose server descriptor is nil.  A response
    that passes the checks before the lookup, and whose nonce the
    authority accepts, makes the validator panic when it builds the
    message, that is after the nonce has been looked up and before the
    signature is decoded or a processor is called. *)
Theorem ValidateClientResponse_nil_ServerInfo (s : OntLoginSdk W)
    (res : ClientResponse.t) (w : W) action w1 :
  prechecks K EqualFold res ->
  getActionByNonce s (ClientResponse.Nonce res) w = ((action, None), w1) ->
  ServerInfo (conf s) = None ->
  Validate s res (start w) =
    (Panic,
     {| world := w1;
        calls := [GetAction (ClientResponse.Nonce res) action None] |}).
Proof.
  intros Hp Hn Hsi.
  destruct (Validate s res (start w)) as [out st'] eqn:Hrun.
  destruct (ValidateClientResponse_run _ _ _ _ _ Hrun)
    as [(_ & _ & Hnot)|[(_ & a & err & w1' & Hl & -> & Hout)|(_ & R)]].
  - contradiction.
  - rewrite Hn in Hl. inversion Hl; subst a err w1'.
    rewrite Hsi in Hout. now subst out.
  - destruct R as [? ? ? si ? ? ? ? ? _ Hsi' _ _ _ _ _ _]. congruence.
Qed.

(** X9.  The presentations are submitted in the order of the response
    and the loop stops at the first that is rejected: the presentations
    submitted are the first ones of the response, all of them when the
    response is accepted, and a call that returned an error is the last
    call of the validation. *)
Theorem ValidateClientResponse_presentations_in_order (s : OntLoginSdk W)
    (res : ClientResponse.t) (w : W) out st' :
  Validate s res (start w) = (out, st') ->
  presentationsOf (calls st') `prefix_of` ClientResponse.VPs res /\
  (forall chain d i vp req e,
     In (VerifyPresentation chain d i vp req (Some e)) (calls st') ->
     last (calls st') = Some (VerifyPresentation chain d i vp req (Some e))).
Proof.
  intros Hrun.
  destruct (ValidateClientResponse_run _ _ _ _ _ Hrun)
    as [(-> & _)|[(_ & a & err & w1 & _ & -> & _)|(_ & R)]].
  - split; [apply prefix_nil|]. intros ? ? ? ? ? ? [].
  - split; [apply prefix_nil|]. intros ? ? ? ? ? ? [E|[]]. discriminate.
  - destruct R as [action w1 w2 si sg dt ch p verr _ _ _ _ _ _ _ Hrest].
    destruct verr as [e|].
    + destruct Hrest as [_ ->]. split; [apply prefix_nil|].
      intros ? ? ? ? ? ? [E|[E|[]]]; discriminate.
    + destruct Hrest as (evs & -> & Hvp).
      destruct (vp_log_prefix _ _ _ _ _ _ _ Hvp) as (Hpre & _ & Hlast).
      split; [exact Hpre|].
      intros ? ? ? ? ? ? [E|[E|Hin]]; [discriminate|discriminate|].
      specialize (Hlast _ _ _ _ _ _ Hin).
      destruct evs as [|ev evs]; [destruct Hin|].
      rewrite !last_cons in *. cbn [last]. now rewrite Hlast.
Qed.

Lemma GenerateChallenge_inv (s : OntLoginSdk W) (req : ClientHello.t)
    (st : State W) hello st1 :
  sdk.GenerateChallenge K EqualFold s req st = (Ok hello, st1) ->
  validateClientHello K EqualFold req = None /\
  genRandomNonceFunc s (ClientHello.Action req) (world st)
    = (ServerHello.Nonce hello, world st1) /\
  calls st1 = (calls st ++ [GenNonce (ClientHello.Action req) (ServerHello.Nonce hello)])%list /\
  ServerHello.VCFilters hello = VCFilters (conf s) !! ClientHello.Action req.
Proof.
  unfold sdk.GenerateChallenge. unfold_M.
  destruct (validateClientHello K EqualFold req); [discriminate|].
  destruct (genRandomNonceFunc s _ _) as [nonce w'].
  intros H. inversion H; subst. cbn.
  destruct (VCFilters (conf s) !! ClientHello.Action req); auto.
Qed.

(** X10.  The filters of a challenge are the filters of the validation.
    When [GenerateChallenge] has issued a hello, and the authority
    gives back, for the nonce of the hello, the action of the request,
    every call of [VerifyPresentation] in the validation of a response
    with that nonce receives the filter list that the hello carried. *)
Theorem challenge_filters_are_validated (s : OntLoginSdk W) (req : ClientHello.t)
    (st : State W) hello st1 (res : ClientResponse.t) w1 out st2
    chain d i vp filters err :
  sdk.GenerateChallenge K EqualFold s req st = (Ok hello, st1) ->
  ClientResponse.Nonce res = ServerHello.Nonce hello ->
  getActionByNonce s (ServerHello.Nonce hello) (world st1)
    = ((ClientHello.Action req, None), w1) ->
  Validate s res (start (world st1)) = (out, st2) ->
  In (VerifyPresentation chain d i vp filters err) (calls st2) ->
  filters = ServerHello.VCFilters hello.
Proof.
  intros Hgen Hnonce Hlookup Hrun Hin.
  destruct (GenerateChallenge_inv _ _ _ _ _ Hgen) as (_ & _ & _ & ->).
  destruct (ValidateClientResponse_run _ _ _ _ _ Hrun)
    as [(-> & _)|[(_ & a & e & w' & _ & -> & _)|(_ & R)]].
  - destruct Hin.
  - destruct Hin as [E|[]]. discriminate.
  - destruct R as [action w' w2 si sg dt ch p verr Hn _ _ _ _ _ _ Hrest].
    rewrite Hnonce, Hlookup in Hn. inversion Hn; subst action w'.
    destruct verr as [e|].
    + destruct Hrest as [_ Hlog]. rewrite Hlog in Hin.
      destruct Hin as [E|[E|[]]]; discriminate.
    + destruct Hrest as (evs & Hlog & Hvp). rewrite Hlog in Hin.
      destruct Hin as [E|[E|Hin]]; [discriminate|discriminate|].
      destruct (vp_log_In _ _ _ _ _ _ _ _ Hvp Hin) as (? & ? & E & _).
      now inversion E.
Qed.

(** X11.  What a validation reads of the SDK: the registry, the lookup
    function, the filters and the name, URL and DID of the server
    descriptor.  Two SDK values that agree on these validate every
    response alike; the advertised chain and algorithm lists, the icon
    and verification method of the server and the minting function have
    no part in it. *)
Theorem ValidateClientResponse_reads_only (s1 s2 : OntLoginSdk W)
    (res : ClientResponse.t) (st : State W) :
  didProcessors s1 = didProcessors s2 ->
  getActionByNonce s1 = getActionByNonce s2 ->
  VCFilters (conf s1) = VCFilters (conf s2) ->
  reduced (ServerInfo (conf s1)) = reduced (ServerInfo (conf s2)) ->
  Validate s1 res st = Validate s2 res st.
Proof.
  intros Hp Hl Hf Hs. unfold sdk.ValidateClientResponse. unfold_M.
  rewrite Hp, Hl, Hf.
  destruct (sdk.validateClientResponse K EqualFold res); [reflexivity|].
  destruct (getDIDKeyAndIndex _) as [[d i] e0].
  destruct (EqualFold d _); [|reflexivity]. cbn [negb].
  destruct (GetDIDChain d) as [chain [e|]]; [reflexivity|].
  destruct (getActionByNonce s2 _ _) as [[action [e|]] w1]; [reflexivity|].
  cbn [fst snd].
  destruct (ServerInfo (conf s1)) as [si1|], (ServerInfo (conf s2)) as [si2|];
    try discriminate; [|reflexivity].
  inversion Hs as [[Hn Hu Hd]]. rewrite Hn, Hu, Hd. reflexivity.
Qed.

End MoreSdk.

(** * The credential reader *)
Section Credentials.
Context {W : Type}.
Variable K : Consts.
Variable EqualFold : string -> string -> bool.
Variable json_Marshal : ClientResponseMsg.t -> Bytes + string.
Variable GetCredentialJsons :
  did.DidProcessor W -> string -> W -> (slice string * option error) * W.

(** X12.  The credentials of an accepted response.  After
    [ValidateClientResponse] has accepted a response, the chain of the
    DID of its verification method has a processor in the registry, the
    one whose [VerifySig] returned no error for the response, and
    [GetCredentailJson] for that chain returns what this processor's
    [GetCredentialJsons] returns, credentials, error and state. *)
Theorem GetCredentailJson_after_acceptance (s : OntLoginSdk W)
    (res : ClientResponse.t) (w0 : W) st' :
  sdk.ValidateClientResponse K EqualFold json_Marshal s res (start w0) = (Ok tt, st') ->
  exists chain processor,
    GetDIDChain (proofDid res) = (chain, None) /\
    didProcessors s !! chain = Some processor /\
    (exists data sigdata w1 w2,
       did.VerifySig processor (proofDid res) (proofIndex res) data sigdata w1
         = (None, w2)) /\
    forall presentation w,
      sdk_rest.GetCredentailJson GetCredentialJsons s chain presentation w
        = GetCredentialJsons processor presentation w.
Proof.
  intros Hrun.
  destruct (ValidateClientResponse_run _ _ _ _ _ _ _ _ Hrun)
    as [(_ & [e He] & _)|[(_ & a & err & w1 & _ & _ & Hout)|(_ & R)]].
  - discriminate.
  - exfalso. destruct err; [discriminate|].
    destruct (ServerInfo (conf s)); [|discriminate].
    destruct (hex.DecodeString _); [|discriminate].
    destruct (json_Marshal _); [|discriminate].
    destruct Hout as (? & _ & _ & ?). discriminate.
  - destruct R as [action w1 w2 si sg dt ch p verr _ _ _ _ Hch Hproc Hsig Hrest].
    destruct verr as [e|]; [destruct Hrest; discriminate|].
    exists ch, p. split; [exact Hch|]. split; [exact Hproc|]. split; [eauto|].
    intros presentation w. unfold sdk_rest.GetCredentailJson. now rewrite Hproc.
Qed.

End Credentials.

(** * The alternate variant: the required credential types *)

Lemma getRequiredVcTypes_loop_spec vcfilters : forall acc,
  legacy.getRequiredVcTypes_loop vcfilters acc =
    (acc ++ map VCFilter.Type_ (List.filter VCFilter.Required vcfilters))%list.
Proof.
  induction vcfilters as [|vcf rest IH]; intros acc; simpl.
  - now rewrite app_nil_r.
  - rewrite IH. destruct (VCFilter.Required vcf); [|reflexivity].
    simpl. now rewrite <- app_assoc.
Qed.

(** X13.  [getRequiredVcTypes] of the alternate variant returns the type
    names of the filters whose required flag is set, in the order of the
    configuration and with their repetitions: a name is in the result
    exactly when a required filter has it, and no optional filter adds
    one. *)
Theorem getRequiredVcTypes_required_only (vcfilters : list VCFilter.t) :
  legacy.getRequiredVcTypes vcfilters
    = map VCFilter.Type_ (List.filter VCFilter.Required vcfilters) /\
  (forall t,
     In t (legacy.getRequiredVcTypes vcfilters) <->
     exists f, In f vcfilters /\ VCFilter.Required f = true /\ VCFilter.Type_ f = t) /\
  (length (legacy.getRequiredVcTypes vcfilters) <= length vcfilters)%nat.
Proof.
  assert (E : legacy.getRequiredVcTypes vcfilters
              = map VCFilter.Type_ (List.filter VCFilter.Required vcfilters)).
  { unfold legacy.getRequiredVcTypes. now rewrite getRequiredVcTypes_loop_spec. }
  split; [exact E|]. rewrite E. split.
  - intros t. rewrite in_map_iff. split.
    + intros (f & <- & Hf). apply filter_In in Hf as [Hin Hr]. eauto.
    + intros (f & Hin & Hr & <-). exists f. split; [reflexivity|].
      apply filter_In. auto.
  - rewrite length_map. apply List.filter_length_le.
Qed.

(** * The alternate variant of the validator *)
Section LegacyFacts.
Context {W : Type}.
Variable K : Consts.
Variable ACTION_REGISTER : string.
Variable EqualFold : string -> string -> bool.
Variable json_Marshal : legacy_sdk.ClientResponseMsg.t -> Bytes + string.

Abbreviation lValidate :=
  (legacy_sdk.ValidateClientResponse (W := W) K EqualFold json_Marshal).

Ltac unfold_L :=
  unfold mbind, mret, legacy_sdk.M_bind, legacy_sdk.M_ret, legacy_sdk.bind,
    legacy_sdk.check, legacy_sdk.deref, legacy_sdk.call, legacy_sdk.ret,
    legacy_sdk.fail, legacy_sdk.panic in *.

Lemma legacy_verifyPresentations_log ch resolver d i trusted required vps :
  forall (st : legacy_sdk.State W) out st',
  legacy_sdk.verifyPresentations ch resolver d i trusted required vps st = (out, st') ->
  exists evs,
    legacy_sdk.calls st' = (legacy_sdk.calls st ++ evs)%list /\
    Forall (fun ev => exists vp e,
              ev = legacy_sdk.PresentationCall ch d i vp trusted required e /\
              In vp vps) evs.
Proof.
  induction vps as [|vp rest IH]; intros st out st' H; simpl in H.
  - inversion H; subst. exists []. rewrite app_nil_r. split; [reflexivity|constructor].
  - unfold_L.
    destruct (legacy_sdk.VerifyPresentation resolver d i vp trusted required
                (legacy_sdk.world st)) as [[e|] w'] eqn:Hc.
    + inversion H; subst. cbn [legacy_sdk.calls]. eexists. split; [reflexivity|].
      constructor; [|constructor]. exists vp, (Some e). split; [reflexivity|now left].
    + apply IH in H as (evs & Hcalls & Hall). cbn [legacy_sdk.calls] in Hcalls.
      exists (legacy_sdk.PresentationCall ch d i vp trusted required None :: evs).
      split; [now rewrite Hcalls, <- app_assoc|].
      constructor.
      * exists vp, None. split; [reflexivity|now left].
      * eapply Forall_impl; [exact Hall|].
        intros ev (vp' & e & -> & Hin). exists vp', e. split; [reflexivity|now right].
Qed.

(** The calls of a run of the alternate validator. *)
Lemma legacy_run (s : legacy_sdk.OntLoginSdk W) (res : legacy_sdk.ClientResponse.t)
    (w : W) out st' :
  lValidate s res (legacy_sdk.start w) = (out, st') ->
  legacy_sdk.calls st' = [] \/
  (exists err,
     legacy_sdk.calls st'
       = [legacy_sdk.CheckNonce
            (legacy_sdk.Proof.Nonce (legacy_sdk.ClientResponse.Proof res)) err]) \/
  (exists si sigdata data ch verr evs,
     legacy_sdk.serverInfo (legacy_sdk.conf s) = Some si /\
     hex.DecodeString (legacy_sdk.Proof.Value (legacy_sdk.ClientResponse.Proof res))
       = inl sigdata /\
     json_Marshal
       {| legacy_sdk.ClientResponseMsg.Type_ := legacy_sdk.ClientResponse.Type_ res;
          legacy_sdk.ClientResponseMsg.Server :=
            {| ServerInfoToSign.Name := ServerInfo.Name si;
               ServerInfoToSign.Url := ServerInfo.Url si;
               ServerInfoToSign.Did := ServerInfo.Did si |};
          legacy_sdk.ClientResponseMsg.Did := legacy_sdk.proofDid res;
          legacy_sdk.ClientResponseMsg.Created :=
            legacy_sdk.Proof.Created (legacy_sdk.ClientResponse.Proof res) |}
       = inl data /\
     legacy_sdk.calls st' =
       (legacy_sdk.CheckNonce
          (legacy_sdk.Proof.Nonce (legacy_sdk.ClientResponse.Proof res)) None ::
        legacy_sdk.SigCall ch (legacy_sdk.proofDid res) (legacy_sdk.proofIndex res) data sigdata verr :: evs)%list /\
     Forall (fun ev => exists vp e,
               ev = legacy_sdk.PresentationCall ch (legacy_sdk.proofDid res) (legacy_sdk.proofIndex res) vp
                      (legacy_sdk.trustedDIDs (legacy_sdk.conf s))
                      (legacy_sdk.getRequiredVcTypes s) e /\
               In vp (legacy_sdk.ClientResponse.VPs res)) evs).
Proof.
  unfold legacy_sdk.ValidateClientResponse, legacy_sdk.start. unfold_L. intros H.
  destruct (legacy_sdk.validateClientResponse K EqualFold res) as [e|];
    [inversion H; subst; auto|].
  pose proof (eq_refl (legacy_sdk.proofDid res)) as Hd. pose proof (eq_refl (legacy_sdk.proofIndex res)) as Hi.
  unfold legacy_sdk.proofDid in Hd at 1. unfold legacy_sdk.proofIndex in Hi at 1.
  destruct (getDIDKeyAndIndex _) as [[d i] e0]. cbn [fst snd] in Hd, Hi. subst d i.
  destruct (EqualFold (legacy_sdk.proofDid res) _); cbn [negb] in H; [|inversion H; subst; auto].
  destruct (GetDIDChain (legacy_sdk.proofDid res)) as [ch [e|]]; [inversion H; subst; auto|].
  cbn [legacy_sdk.world legacy_sdk.calls] in H.
  destruct (legacy_sdk.checkNonceExistFunc s _ w) as [err w1] eqn:Hn.
  cbn [app] in H.
  destruct err as [e|]; [inversion H; subst; right; left; eauto|].
  destruct (legacy_sdk.serverInfo (legacy_sdk.conf s)) as [si|] eqn:Hsi;
    cbn beta iota in H; [|inversion H; subst; right; left; eauto].
  destruct (hex.DecodeString _) as [sigdata|e] eqn:Hhex;
    [|inversion H; subst; right; left; eauto].
  destruct (json_Marshal _) as [data|e] eqn:Hm;
    [|inversion H; subst; right; left; eauto].
  destruct (legacy_sdk.didResolvers s !! ch) as [resolver|] eqn:Hp;
    [|inversion H; subst; right; left; eauto].
  cbn [legacy_sdk.world legacy_sdk.calls] in H.
  destruct (legacy_sdk.VerifySig resolver (legacy_sdk.proofDid res) (legacy_sdk.proofIndex res) data sigdata w1)
    as [verr w2] eqn:Hv.
  cbn [app] in H. right; right.
  exists si, sigdata, data, ch, verr.
  destruct verr as [e|].
  - inversion H; subst. exists []. repeat split; auto.
  - destruct (0 <? length (legacy_sdk.ClientResponse.VPs res))%nat.
    + apply legacy_verifyPresentations_log in H as (evs & Hcalls & Hall).
      cbn [legacy_sdk.calls] in Hcalls. exists evs. repeat split; auto.
    + inversion H; subst. exists []. repeat split; auto.
Qed.

(** X14.  The message of the alternate variant.  The bytes handed to
    [VerifySig] are the serialization of the message type, the name,
    URL and DID of the configured server, the DID of the verification
    method and the creation time of the proof: the nonce is not signed.
    The nonce that was checked before is the one of the proof. *)
Theorem legacy_signed_message (s : legacy_sdk.OntLoginSdk W)
    (res : legacy_sdk.ClientResponse.t) (w : W) out st' ch d i data sigdata err :
  lValidate s res (legacy_sdk.start w) = (out, st') ->
  In (legacy_sdk.SigCall ch d i data sigdata err) (legacy_sdk.calls st') ->
  (exists si,
     legacy_sdk.serverInfo (legacy_sdk.conf s) = Some si /\
     json_Marshal
       {| legacy_sdk.ClientResponseMsg.Type_ := legacy_sdk.ClientResponse.Type_ res;
          legacy_sdk.ClientResponseMsg.Server :=
            {| ServerInfoToSign.Name := ServerInfo.Name si;
               ServerInfoToSign.Url := ServerInfo.Url si;
               ServerInfoToSign.Did := ServerInfo.Did si |};
          legacy_sdk.ClientResponseMsg.Did :=
            (getDIDKeyAndIndex
               (legacy_sdk.Proof.VerificationMethod
                  (legacy_sdk.ClientResponse.Proof res))).1.1;
          legacy_sdk.ClientResponseMsg.Created :=
            legacy_sdk.Proof.Created (legacy_sdk.ClientResponse.Proof res) |}
       = inl data) /\
  hd_error (legacy_sdk.calls st')
    = Some (legacy_sdk.CheckNonce
              (legacy_sdk.Proof.Nonce (legacy_sdk.ClientResponse.Proof res)) None).
Proof.
  intros Hrun Hin.
  destruct (legacy_run _ _ _ _ _ Hrun)
    as [Hc|[[e Hc]|(si & sg & dt & c & verr & evs & Hsi & _ & Hm & Hc & Hall)]];
    rewrite Hc in Hin |- *.
  - destruct Hin.
  - destruct Hin as [E|[]]. discriminate.
  - split; [|reflexivity]. exists si. split; [exact Hsi|].
    destruct Hin as [E|[E|Hin]]; [discriminate| |].
    + inversion E; subst. exact Hm.
    + rewrite Forall_forall in Hall. apply list_elem_of_In in Hin.
      destruct (Hall _ Hin) as (vp & e & E & _). discriminate.
Qed.

(** X15.  The presentations of the alternate variant.  Every call of
    [VerifyPresentation] is for a presentation of the response and
    receives the trusted DIDs of the configuration and the type names of
    the configured filters whose required flag is set: the same for
    every nonce. *)
Theorem legacy_presentation_arguments (s : legacy_sdk.OntLoginSdk W)
    (res : legacy_sdk.ClientResponse.t) (w : W) out st'
    ch d i vp trusted required err :
  lValidate s res (legacy_sdk.start w) = (out, st') ->
  In (legacy_sdk.PresentationCall ch d i vp trusted required err)
     (legacy_sdk.calls st') ->
  In vp (legacy_sdk.ClientResponse.VPs res) /\
  trusted = legacy_sdk.trustedDIDs (legacy_sdk.conf s) /\
  required = map VCFilter.Type_
               (List.filter VCFilter.Required
                  (default [] (legacy_sdk.vcfilters (legacy_sdk.conf s)))).
Proof.
  intros Hrun Hin.
  destruct (legacy_run _ _ _ _ _ Hrun)
    as [Hc|[[e Hc]|(si & sg & dt & c & verr & evs & _ & _ & _ & Hc & Hall)]];
    rewrite Hc in Hin.
  - destruct Hin.
  - destruct Hin as [E|[]]. discriminate.
  - destruct Hin as [E|[E|Hin]]; [discriminate|discriminate|].
    rewrite Forall_forall in Hall. apply list_elem_of_In in Hin.
    destruct (Hall _ Hin) as (vp' & e & E & Hvp). inversion E; subst.
    repeat split; auto.
    unfold legacy_sdk.getRequiredVcTypes, legacy.getRequiredVcTypes.
    now rewrite getRequiredVcTypes_loop_spec.
Qed.

(** X16.  The challenge of the alternate variant.  A hello is issued
    only for a request that passes the three checks, the action being
    accepted when it equals "0" or "1" up to case; the nonce is minted
    without the action, by one call; and the hello carries the
    configured filters exactly when the action is the string
    [ACTION_REGISTER], and none otherwise. *)
Theorem legacy_GenerateChallenge_issued (s : legacy_sdk.OntLoginSdk W)
    (req : legacy_sdk.ClientHello.t) (st : legacy_sdk.State W) hello st1 :
  legacy_sdk.GenerateChallenge K ACTION_REGISTER EqualFold s req st = (Ok hello, st1) ->
  EqualFold (legacy_sdk.ClientHello.Ver req) (SYS_VER K) = true /\
  EqualFold (legacy_sdk.ClientHello.Type_ req) (TYPE_CLIENT_HELLO K) = true /\
  (EqualFold (legacy_sdk.ClientHello.Action req) "0" = true \/
   EqualFold (legacy_sdk.ClientHello.Action req) "1" = true) /\
  legacy_sdk.genRandomNonceFunc s (legacy_sdk.world st)
    = (ServerHello.Nonce hello, legacy_sdk.world st1) /\
  legacy_sdk.calls st1
    = (legacy_sdk.calls st ++ [legacy_sdk.GenNonce (ServerHello.Nonce hello)])%list /\
  ServerHello.VCFilters hello =
    (if String.eqb (legacy_sdk.ClientHello.Action req) ACTION_REGISTER
     then legacy_sdk.vcfilters (legacy_sdk.conf s) else None).
Proof.
  unfold legacy_sdk.GenerateChallenge, legacy_sdk.validateClientHello. unfold_L.
  destruct (EqualFold (legacy_sdk.ClientHello.Ver req) _); [|discriminate].
  destruct (EqualFold (legacy_sdk.ClientHello.Type_ req) _); [|discriminate].
  cbn [negb].
  destruct (EqualFold (legacy_sdk.ClientHello.Action req) "0") eqn:E0,
           (EqualFold (legacy_sdk.ClientHello.Action req) "1") eqn:E1;
    cbn [negb andb]; try discriminate;
    destruct (legacy_sdk.genRandomNonceFunc s _) as [nonce w'];
    intros H; inversion H; subst; cbn; auto 10.
Qed.

End LegacyFacts.

(** * Further scenarios in the test environment *)
Section MoreScenarios.
Import TestEnv.

Lemma ValidateClientResponse_nonce_discipline_witness :
  (~ prechecks K strings.EqualFold_ascii (foreign "stale") /\
   (validate loginsdk (foreign "stale") (start store)).2 = start store /\
   exists e, (validate loginsdk (foreign "stale") (start store)).1 = Err e) \/
  (prechecks K strings.EqualFold_ascii (foreign "stale") /\
   exists action err w1 rest,
     getAction "stale" store = ((action, err), w1) /\
     calls (validate loginsdk (foreign "stale") (start store)).2
       = GetAction "stale" action err :: rest /\
     forallb isProcessorCall rest = true /\
     (err <> None ->
      (validate loginsdk (foreign "stale") (start store)).1 = Err NonceInvalid /\
      rest = [] /\
      world (validate loginsdk (foreign "stale") (start store)).2 = w1)).
Proof.
  apply (ValidateClientResponse_nonce_discipline K strings.EqualFold_ascii
           marshal loginsdk (foreign "stale") store).
  vm_compute. reflexivity.
Defined.

Lemma ValidateClientResponse_VerifySig_call_witness :
  String.length (Proof.Value (ClientResponse.Proof accepted)) = (2 * length [Byte.x01])%nat /\
  countVerifySig (calls (validate loginsdk accepted (start store)).2) = 1%nat.
Proof.
  destruct (ValidateClientResponse_VerifySig_call K strings.EqualFold_ascii marshal
              loginsdk accepted store
              (validate loginsdk accepted (start store)).1
              (validate loginsdk accepted (start store)).2
              "ont" "did:ont:abc" 0 signedBytes [Byte.x01] None)
    as (_ & _ & _ & _ & _ & _ & Hlen & _ & Hcount & _).
  - vm_compute. reflexivity.
  - vm_compute. right. left. reflexivity.
  - split; [exact Hlen|exact Hcount].
Defined.

Lemma ValidateClientResponse_accepted_witness :
  prechecks K strings.EqualFold_ascii (presenting ["vp1"; "vp2"]) /\
  presentationsOf (calls (validate loginsdk (presenting ["vp1"; "vp2"]) (start store)).2)
    = ["vp1"; "vp2"].
Proof.
  destruct (ValidateClientResponse_accepted K strings.EqualFold_ascii marshal
              loginsdk (presenting ["vp1"; "vp2"]) store
              (validate loginsdk (presenting ["vp1"; "vp2"]) (start store)).2)
    as (Hp & a & w1 & w2 & si & sg & dt & ch & p & _ & _ & _ & _ & _ & _ & _ & Hvps).
  - vm_compute. reflexivity.
  - split; [exact Hp|exact Hvps].
Defined.

Lemma ValidateClientResponse_nil_ServerInfo_witness :
  ValidateClientResponse K strings.EqualFold_ascii marshal loginsdkNoServer accepted
    (start store)
  = (Panic, {| world := []; calls := [GetAction "n1" 0 None] |}).
Proof.
  apply (ValidateClientResponse_nil_ServerInfo K strings.EqualFold_ascii marshal
           loginsdkNoServer accepted store 0 []).
  - repeat split; vm_compute; reflexivity.
  - reflexivity.
  - reflexivity.
Defined.

Lemma ValidateClientResponse_presentations_in_order_witness :
  presentationsOf
    (calls (validate loginsdk (presenting ["vp1"; "bad"; "vp3"]) (start store)).2)
    `prefix_of` ["vp1"; "bad"; "vp3"].
Proof.
  exact (proj1 (ValidateClientResponse_presentations_in_order K strings.EqualFold_ascii
                  marshal loginsdk (presenting ["vp1"; "bad"; "vp3"]) store
                  (validate loginsdk (presenting ["vp1"; "bad"; "vp3"]) (start store)).1
                  (validate loginsdk (presenting ["vp1"; "bad"; "vp3"]) (start store)).2
                  eq_refl)).
Defined.

(** The loop stopped at the rejected presentation. *)
Example presentations_after_rejection_not_submitted :
  presentationsOf
    (calls (validate loginsdk (presenting ["vp1"; "bad"; "vp3"]) (start store)).2)
  = ["vp1"; "bad"].
Proof. vm_compute. reflexivity. Qed.

Lemma challenge_filters_are_validated_witness :
  Some [degree; hobby]
  = ServerHello.VCFilters
      (match (GenerateChallenge K strings.EqualFold_ascii loginsdk hello (start [])).1 with
       | Ok h => h
       | _ => ServerHello.mk "" "" "" None [] [] None
       end).
Proof.
  apply (challenge_filters_are_validated K strings.EqualFold_ascii marshal
           loginsdk hello (start [])
           _ (GenerateChallenge K strings.EqualFold_ascii loginsdk hello (start [])).2
           (answer ["vp1"]) []
           (validate loginsdk (answer ["vp1"]) (start [("random string", 0)])).1
           (validate loginsdk (answer ["vp1"]) (start [("random string", 0)])).2
           "ont" "did:ont:abc" 0 "vp1" (Some [degree; hobby]) None).
  - vm_compute. reflexivity.
  - reflexivity.
  - reflexivity.
  - vm_compute. reflexivity.
  - vm_compute. right. right. left. reflexivity.
Defined.

Lemma ValidateClientResponse_reads_only_witness :
  validate loginsdk (presenting ["vp1"]) (start store)
  = ValidateClientResponse K strings.EqualFold_ascii marshal loginsdk'
      (presenting ["vp1"]) (start store).
Proof.
  apply (ValidateClientResponse_reads_only K strings.EqualFold_ascii marshal
           loginsdk loginsdk' (presenting ["vp1"]) (start store)); reflexivity.
Defined.

Lemma GetCredentailJson_after_acceptance_witness :
  exists chain processor0,
    GetDIDChain (proofDid accepted) = (chain, None) /\
    didProcessors loginsdk !! chain = Some processor0 /\
    (exists data sigdata w1 w2,
       did.VerifySig processor0 (proofDid accepted) (proofIndex accepted) data sigdata w1
         = (None, w2)) /\
    forall presentation w,
      sdk_rest.GetCredentailJson credentialJsons loginsdk chain presentation w
        = credentialJsons processor0 presentation w.
Proof.
  apply (GetCredentailJson_after_acceptance K strings.EqualFold_ascii marshal
           credentialJsons loginsdk accepted store
           (validate loginsdk accepted (start store)).2).
  vm_compute. reflexivity.
Defined.

(** The chain of an accepted response has a reader of credentials, an
    unregistered chain has none. *)
Example scenario_credentials :
  sdk_rest.GetCredentailJson credentialJsons loginsdk "ont" "vp1" store
    = ((Some ["vp1"], None), store) /\
  sdk_rest.GetCredentailJson credentialJsons loginsdk "eth" "vp1" store
    = ((None, Some (External "chain not supported")), store).
Proof. split; vm_compute; reflexivity. Qed.

(** The alternate variant: two responses with different nonces, both
    issued, hand the same bytes to [VerifySig]. *)
Lemma legacy_signed_message_witness :
  (exists si,
     Some serverInfo = Some si /\
     LegacyEnv.marshal
       {| legacy_sdk.ClientResponseMsg.Type_ := "client_response";
          legacy_sdk.ClientResponseMsg.Server :=
            {| ServerInfoToSign.Name := ServerInfo.Name si;
               ServerInfoToSign.Url := ServerInfo.Url si;
               ServerInfoToSign.Did := ServerInfo.Did si |};
          legacy_sdk.ClientResponseMsg.Did := "did:ont:abc";
          legacy_sdk.ClientResponseMsg.Created := 1635000000 |}
       = inl LegacyEnv.signedBytes) /\
  hd_error (legacy_sdk.calls
              (LegacyEnv.validate LegacyEnv.loginsdk (LegacyEnv.response "n1" [])
                 (legacy_sdk.start ["n1"; "n2"])).2)
    = Some (legacy_sdk.CheckNonce "n1" None).
Proof.
  apply (legacy_signed_message K strings.EqualFold_ascii LegacyEnv.marshal
           LegacyEnv.loginsdk (LegacyEnv.response "n1" []) ["n1"; "n2"]
           (LegacyEnv.validate LegacyEnv.loginsdk (LegacyEnv.response "n1" [])
              (legacy_sdk.start ["n1"; "n2"])).1
           (LegacyEnv.validate LegacyEnv.loginsdk (LegacyEnv.response "n1" [])
              (legacy_sdk.start ["n1"; "n2"])).2
           "ont" "did:ont:abc" 0 LegacyEnv.signedBytes [Byte.x01] None).
  - vm_compute. reflexivity.
  - vm_compute. right. left. reflexivity.
Defined.

Example legacy_nonce_not_signed :
  legacy_sdk.calls
    (LegacyEnv.validate LegacyEnv.loginsdk (LegacyEnv.response "n2" [])
       (legacy_sdk.start ["n1"; "n2"])).2
  = [legacy_sdk.CheckNonce "n2" None;
     legacy_sdk.SigCall "ont" "did:ont:abc" 0 LegacyEnv.signedBytes [Byte.x01] None].
Proof. vm_compute. reflexivity. Qed.

Lemma legacy_presentation_arguments_witness :
  In "vp1" ["vp1"] /\
  ["did:ont:issuer"] = ["did:ont:issuer"] /\
  ["DegreeCredential"] = map VCFilter.Type_ (List.filter VCFilter.Required [degree; hobby]).
Proof.
  apply (legacy_presentation_arguments K strings.EqualFold_ascii LegacyEnv.marshal
           LegacyEnv.loginsdk (LegacyEnv.response "n1" ["vp1"]) ["n1"]
           (LegacyEnv.validate LegacyEnv.loginsdk (LegacyEnv.response "n1" ["vp1"])
              (legacy_sdk.start ["n1"])).1
           (LegacyEnv.validate LegacyEnv.loginsdk (LegacyEnv.response "n1" ["vp1"])
              (legacy_sdk.start ["n1"])).2
           "ont" "did:ont:abc" 0 "vp1" ["did:ont:issuer"] ["DegreeCredential"] None).
  - vm_compute. reflexivity.
  - vm_compute. right. right. left. reflexivity.
Defined.

Lemma legacy_GenerateChallenge_issued_witness :
  ServerHello.VCFilters
    (match (legacy_sdk.GenerateChallenge K LegacyEnv.ACTION_REGISTER
              strings.EqualFold_ascii LegacyEnv.loginsdk LegacyEnv.register
              (legacy_sdk.start [])).1 with
     | Ok h => h
     | _ => ServerHello.mk "" "" "" None [] [] None
     end)
  = Some [degree; hobby].
Proof.
  refine (proj2 (proj2 (proj2 (proj2 (proj2
    (legacy_GenerateChallenge_issued K LegacyEnv.ACTION_REGISTER
       strings.EqualFold_ascii LegacyEnv.loginsdk LegacyEnv.register
       (legacy_sdk.start []) _
       (legacy_sdk.GenerateChallenge K LegacyEnv.ACTION_REGISTER
          strings.EqualFold_ascii LegacyEnv.loginsdk LegacyEnv.register
          (legacy_sdk.start [])).2 _)))))).
  vm_compute. reflexivity.
Defined.

End MoreScenarios.
